(** * Apex monitoring agent: a shallow embedding of the run cycle

    The development follows the JavaScript sources of the agent:

    - [utils/retry.js]                       -> [Module Retry]
    - [monitors/debug-log-monitor.js]        -> [Module DebugLogMonitor]
    - [monitors/governor-limit-monitor.js]   -> [Module GovernorLimitMonitor]
    - [monitors/code-quality-monitor.js]     -> [Module CodeQualityMonitor]
    - [analyzers/anomaly-detector.js]        -> [Module AnomalyDetector]
    - [storage/database.js]                  -> [Module MonitoringDatabase]
    - [auth/salesforce-auth.js]              -> [Module SalesforceAuth]
    - [orchestrator.js]                      -> [Module MonitoringOrchestrator]
    - [notifications/notifier.js]            -> [Module Notifier], [Module Notifications]
    - [index.js]                             -> [Module Agent]

    JavaScript numbers are IEEE-754 binary64 values and are modelled by
    Rocq's primitive [float]s, so that [used / limit * 100], the
    comparisons with the thresholds and [toFixed(1)] behave as they do
    in the program.  Array lengths and loop counters are [nat].  Objects
    used as string-keyed dictionaries are [gmap string _]; their keys
    are taken to be ordinary property names, none of them a name that
    every object inherits.  Exceptions are the [Throw] case of
    [outcome]; code that mutates the store or talks to the outside
    world threads an explicit state.

    What lies outside the program is a [World.t]: the answers of the
    remote org to the queries, in the order they are sent, the values
    of [Math.random()] and [Date.now()], and the failures of the
    store.  The orchestrator is taken after [initialize()], with its
    store and notifier in place.  Calls of [logger.info] leave no
    trace; calls of [logger.warn] and [logger.error] are recorded. *)

From Stdlib Require Import ZArith List String Floats Lia.
From stdpp Require Import base option list gmap strings fin_maps.
Import ListNotations.

#[local] Set Warnings "-clear-no-such-hyp".
Local Open Scope Z_scope.

(** ** Exceptions *)

(** A JavaScript [Error] object, as far as the program looks at it. *)
Record Error := mkError { name : string; message : string }.

(** The result of evaluating a piece of code that may throw. *)
Inductive outcome (A : Type) : Type :=
| Ok (a : A)
| Throw (e : Error).
Arguments Ok {A} a.
Arguments Throw {A} e.

(** ** JavaScript numbers *)

Module JS.

(** [x >= y] on numbers; false as soon as one side is [NaN]. *)
Definition ge (x y : float) : bool := (y <=? x)%float.

(** [x > y] and [x < y]. *)
Definition gt (x y : float) : bool := (y <? x)%float.
Definition lt (x y : float) : bool := (x <? y)%float.

(** The number nearest to an integer (exact below 2^53). *)
Definition of_Z (z : Z) : float := SF2Prim (binary_normalize prec emax z 0 false).

(** The number that holds an array length or a counter. *)
Definition of_nat (n : nat) : float := of_Z (Z.of_nat n).

Definition is_pos_zero (x : float) : bool := is_zero x && negb (get_sign x).
Definition is_neg_zero (x : float) : bool := is_zero x && get_sign x.

(** One step of [Math.max]: [+0] counts as larger than [-0]. *)
Definition max_step (highest number : float) : float :=
  if is_pos_zero number && is_neg_zero highest then number
  else if (highest <? number)%float then number
  else highest.

(** [Math.max(...values)]: [NaN] if any argument is [NaN], otherwise
    the largest argument, starting from [-Infinity]. *)
Definition Math_max (values : list float) : float :=
  if existsb is_nan values then nan
  else fold_left max_step values neg_infinity.

(** [Math.floor] and [Math.ceil]. *)
Definition Math_floor (x : float) : float :=
  match Prim2SF x with
  | S754_finite s m e =>
      if 0 <=? e then x
      else
        let d := 2 ^ (- e) in
        if s then of_Z (- ((Zpos m + d - 1) / d)) else of_Z (Zpos m / d)
  | _ => x
  end.

Definition Math_ceil (x : float) : float :=
  match Prim2SF x with
  | S754_finite s m e =>
      if 0 <=? e then x
      else
        let d := 2 ^ (- e) in
        if s then
          (let q := Zpos m / d in if q =? 0 then neg_zero else of_Z (- q))
        else of_Z ((Zpos m + d - 1) / d)
  | _ => x
  end.

(** The text produced by [x.toFixed(1)], kept as the data that
    determines it rather than as characters:
    - [Fixed neg n] is the decimal numeral of [n / 10] with exactly one
      fractional digit, preceded by a minus sign when [neg] holds;
    - [Plain x] is [String(x)], which [toFixed] returns when [x] is
      not finite or when its magnitude is at least [1e21]. *)
Inductive numstr :=
| Fixed (neg : bool) (n : Z)
| Plain (x : float).

(** The integer [n] for which [n / 10] is closest to [m * 2^e]; the
    larger one when two are equally close. *)
Definition nearest_tenths (m e : Z) : Z :=
  if 0 <=? e then 10 * m * 2 ^ e
  else (20 * m + 2 ^ (- e)) / 2 ^ (1 - e).

Definition toFixed1 (x : float) : numstr :=
  match Prim2SF x with
  | S754_nan => Plain x
  | S754_infinity _ => Plain x
  | S754_zero _ => Fixed false 0
  | S754_finite s m e =>
      if (1e21 <=? abs x)%float then Plain x
      else Fixed s (nearest_tenths (Zpos m) e)
  end.

(** [parseFloat] on such a text: the number nearest to the decimal
    numeral; [String(x)] reads back as [x]. *)
Definition parseFloat (s : numstr) : float :=
  match s with
  | Plain x => x
  | Fixed neg n =>
      match n with
      | Zpos p => SF2Prim (SFdiv prec emax (S754_finite neg p 0) (S754_finite false 10 0))
      | _ => if neg then neg_zero else zero
      end
  end.

(** [new Date(value)]: the time value of the date, [NaN] for an
    invalid date; and [date.toISOString()], which throws on an
    invalid date.  The text itself is not built: the time value
    stands for it. *)
Definition newDate (value : float) : float :=
  if is_finite value && (abs value <=? 8640000000000000)%float
  then ((if (value <? 0)%float then Math_ceil value else Math_floor value) + 0)%float
  else nan.

Definition toISOString (timeValue : float) : outcome float :=
  if is_nan timeValue
  then Throw (mkError "RangeError" "Invalid time value")
  else Ok timeValue.

End JS.

(** ** [utils/retry.js] *)

Module Retry.

(** What [retry] does, in the order it happens: the invocations of
  [fn], the logger calls and the sleeps. *)
Inductive event :=
| Invoke (attempt : nat)
| Warn (attempt : nat) (backoffDelay : Z) (error : string)
| Sleep (ms : Z)
| LogError (maxRetries : nat) (error : string).

Section WithOperation.

(** [fn] is a closure: it runs on a state [S] of its own and either
returns a [T] or throws. *)
Context {S T : Type}.
Variable fn : S -> outcome T * S.
Variable maxRetries : nat.
Variable delay : Z.

(** [lastError.message] when the loop is left; [lastError] is still
[undefined] when the loop body never ran. *)
Definition exhausted (lastError : option Error) (s : S) (log : list event)
  : outcome T * (S * list event) :=
  match lastError with
  | Some e => (Throw e, (s, log ++ [LogError maxRetries (message e)]))
  | None =>
  (Throw (mkError "TypeError"
            "Cannot read properties of undefined (reading 'message')"),
   (s, log))
  end.

(** The [for] loop from [attempt] on; [remaining] counts the
iterations left, [maxRetries + 1 - attempt]. *)
Fixpoint attempts (remaining attempt : nat) (lastError : option Error)
  (s : S) (log : list event) : outcome T * (S * list event) :=
  match remaining with
  | O => exhausted lastError s log
  | Datatypes.S remaining' =>
  match fn s with
  | (Ok v, s') => (Ok v, (s', log ++ [Invoke attempt]))
  | (Throw error, s') =>
      if (attempt <? maxRetries)%nat then
        let backoffDelay := delay * 2 ^ (Z.of_nat attempt - 1) in
        attempts remaining' (Datatypes.S attempt) (Some error) s'
          (log ++ [Invoke attempt;
                   Warn attempt backoffDelay (message error);
                   Sleep backoffDelay])
      else
        attempts remaining' (Datatypes.S attempt) (Some error) s'
          (log ++ [Invoke attempt])
  end
  end.

Definition retry (s : S) : outcome T * (S * list event) :=
  attempts maxRetries 1%nat None s [].

End WithOperation.

End Retry.

(** ** [config.json]

    The configuration is read once at start-up; the record lists the
    options the program reads.  A numeric option that is missing from
    the file reads as [undefined], which the comparisons and the
    arithmetic below treat like [NaN]. *)

Module Config.

Module Enabled.
Record t := { debugLogs : bool; governorLimits : bool; codeQuality : bool }.
End Enabled.

Module Intervals.
Record t := { debugLogHours : float }.
End Intervals.

Module Monitoring.
Record t := { enabled : Enabled.t; intervals : Intervals.t }.
End Monitoring.

Module ErrorRate.
Record t := { absoluteCount : float }.
End ErrorRate.

Module GovernorLimits.
Record t := { soqlQueries : float; dmlStatements : float; cpuTime : float }.
End GovernorLimits.

Module CodeQuality.
Record t := { cyclomaticComplexity : float; classLength : float;
              minTestCoverage : float }.
End CodeQuality.

Module Thresholds.
Record t := { errorRate : ErrorRate.t; governorLimits : GovernorLimits.t;
              codeQuality : CodeQuality.t }.
End Thresholds.

Module Notifications.
Record t := { email_enabled : bool; email_onAnomalyOnly : bool;
              reports_generateHtml : bool }.
End Notifications.

Record t := { monitoring : Monitoring.t; thresholds : Thresholds.t;
              notifications : Notifications.t }.

End Config.

(** ** The records the monitors produce *)

Module ErrorRecord.
(** An element of [errors], as [queryDebugLogs] builds it. *)
Record t := {
  timestamp : option string;
  logId : option string;
  errorType : string;
  errorMessage : option string;
  className : string;
  methodName : string;
  lineNumber : option Z
}.
End ErrorRecord.

Module ErrorSummary.
(** The object returned by [analyzeErrors].  Its fifth property,
    [mostCommonError], is the first key of [errorTypes] in property
    enumeration order after a stable sort by count; a [gmap] has no
    enumeration order, so that property is left out. *)
Record t := {
  totalErrors : nat;
  uniqueErrorTypes : nat;
  errorTypes : gmap string nat;
  classErrors : gmap string nat
}.
End ErrorSummary.

Module DebugLogResults.
Record t := { errors : list ErrorRecord.t; summary : ErrorSummary.t }.
End DebugLogResults.

Module LimitUsageRecord.
(** An element of [limitData]. *)
Record t := {
  timestamp : option string;
  className : string;
  methodName : string;
  soqlQueriesUsed : float;
  soqlQueriesLimit : float;
  dmlStatementsUsed : float;
  dmlStatementsLimit : float;
  cpuTimeUsed : float;
  cpuTimeLimit : float;
  heapSizeUsed : float;
  heapSizeLimit : float
}.
End LimitUsageRecord.

Module Percentages.
Record t := { soql : JS.numstr; dml : JS.numstr; cpu : JS.numstr; heap : JS.numstr }.
End Percentages.

Module HighUsage.
(** [{ ...data, percentages, maxPercent }] *)
Record t := {
  data : LimitUsageRecord.t;
  percentages : Percentages.t;
  maxPercent : JS.numstr
}.
End HighUsage.

Module ClassTotals.
(** An entry of [byClass] while the records are being read: the
    [avg*] properties hold running sums. *)
Record t := { count : nat; avgSoql : float; avgDml : float; avgCpu : float }.
End ClassTotals.

Module ClassAverages.
(** An entry of [byClass] once the averages have been formatted. *)
Record t := { count : nat; avgSoql : JS.numstr; avgDml : JS.numstr;
              avgCpu : JS.numstr }.
End ClassAverages.

Module LimitAnalysis.
Record t := {
  highUsageCount : nat;
  highUsage : list HighUsage.t;
  byClass : gmap string ClassAverages.t
}.
End LimitAnalysis.

Module GovernorLimitResults.
Record t := { limitData : list LimitUsageRecord.t; analysis : LimitAnalysis.t }.
End GovernorLimitResults.

Module SymbolTable.
Record method := { methodName : string }.
(** [methods] is [None] when the property is missing or [null]. *)
Record t := { methods : option (list method) }.
End SymbolTable.

Module ApexClass.
(** An element of [classes]. *)
Record t := {
  name : option string;
  length : float;
  complexity : float;
  apiVersion : option float;
  testCoverage : option float
}.
End ApexClass.

Inductive ClassIssue :=
| HighComplexity (complexity : float)     (* `High complexity: ${cls.complexity}` *)
| ClassTooLong (length : float)           (* `Class too long: ${cls.length} lines` *)
| LowTestCoverage (coverage : float).     (* `Low test coverage: ${cls.testCoverage}%` *)

Module Metrics.
Record t := { complexity : float; length : float; coverage : option float }.
End Metrics.

Module QualityIssue.
Record t := { className : option string; issues : list ClassIssue; metrics : Metrics.t }.
End QualityIssue.

Module CodeQualityResults.
Record t := { classes : list ApexClass.t; issues : list QualityIssue.t }.
End CodeQualityResults.

Module MonitoringResults.
(** The [results] object of a run: a property is present when its
    monitor was enabled and returned. *)
Record t := {
  debugLogs : option DebugLogResults.t;
  governorLimits : option GovernorLimitResults.t;
  codeQuality : option CodeQualityResults.t
}.
End MonitoringResults.

(** ** Anomalies *)

Inductive AnomalyType :=
| HIGH_ERROR_RATE
| MULTIPLE_ERROR_TYPES
| HIGH_GOVERNOR_LIMIT_USAGE
| CODE_QUALITY_ISSUE.

Inductive Severity := LOW | MEDIUM | HIGH | CRITICAL.

#[global] Instance AnomalyType_eq_dec : EqDecision AnomalyType.
Proof. solve_decision. Defined.

#[global] Instance Severity_eq_dec : EqDecision Severity.
Proof. solve_decision. Defined.

(** The [description] template strings, by template and interpolated values. *)
Inductive Description :=
| ErrorsDetected (count : nat)
    (* `${errors.length} errors detected in the last monitoring period` *)
| DifferentErrorTypes (count : nat)
    (* `${summary.uniqueErrorTypes} different error types detected` *)
| ApproachingLimits (className : string) (maxPercent : JS.numstr)
    (* `${usage.className} approaching governor limits (${usage.maxPercent}% usage)` *)
| QualityIssues (className : option string) (count : nat).
    (* `${issue.className} has ${issue.issues.length} quality issue(s)` *)

Inductive Details :=
| ErrorRateDetails (errorCount : nat) (threshold : float) (errorTypes : gmap string nat)
| ErrorTypesDetails (errorTypes : gmap string nat)
| LimitDetails (className methodName : string) (percentages : Percentages.t)
    (maxPercent : JS.numstr)
| QualityDetails (className : option string) (issues : list ClassIssue)
    (metrics : Metrics.t).

Module Anomaly.
Record t := {
  type : AnomalyType;
  severity : Severity;
  description : Description;
  details : Details
}.
End Anomaly.

(** ** Effects

    Code that throws, logs, reads the clock, draws random numbers or
    talks to the remote org runs in a state-and-exception monad: a
    computation takes the state and returns its outcome with the new
    state.  A [throw] keeps the state reached so far. *)

Definition M (St A : Type) : Type := St -> outcome A * St.

Definition ret {St A} (a : A) : M St A := fun s => (Ok a, s).

Definition throw {St A} (e : Error) : M St A := fun s => (Throw e, s).

Definition bind {St A B} (m : M St A) (k : A -> M St B) : M St B :=
  fun s =>
    match m s with
    | (Ok a, s') => k a s'
    | (Throw e, s') => (Throw e, s')
    end.

(** [try { m } catch (error) { handler }] *)
Definition try_catch {St A} (m : M St A) (handler : Error -> M St A) : M St A :=
  fun s =>
    match m s with
    | (Ok a, s') => (Ok a, s')
    | (Throw e, s') => handler e s'
    end.

Definition lift {St A} (r : outcome A) : M St A := fun s => (r, s).

Notation "x <- m ;; k" := (bind m (fun x => k))
  (at level 100, m at next level, right associativity).
Notation "m ;;; k" := (bind m (fun _ => k))
  (at level 100, right associativity).

(** [for (const x of xs) { ys.push(await f(x)) }] *)
Fixpoint for_each {St A B} (f : A -> M St B) (xs : list A) : M St (list B) :=
  match xs with
  | [] => ret []
  | x :: xs' => y <- f x ;; ys <- for_each f xs' ;; ret (y :: ys)
  end.

(** ** The outside world *)

Module SObject.
(** A record of a query result, with the columns the program reads. *)
Record t := {
  Id : option string;
  StartTime : option string;
  Status : option string;
  Operation : option string;
  Location : option string;
  DurationMilliseconds : option float;
  Name : option string;
  LengthWithoutComments : option float;
  ApiVersion : option float;
  SymbolTable : option SymbolTable.t
}.
End SObject.

Module QueryResult.
Record t := { totalSize : nat; records : list SObject.t }.
End QueryResult.

(** What one run meets outside the program: the answer to each query
    sent over the connection, the values of [Math.random()] and
    [Date.now()], in the order they are asked for, and, for each call
    of a method of the store, the error it fails with, if any. *)
Module World.
Record t := {
  query : nat -> outcome QueryResult.t;
  random : nat -> float;
  now : nat -> float;
  store : nat -> option Error
}.
End World.

Inductive LogEntry :=
| LogError (message : string) (error : string)
    (* logger.error(message, { error: error.message }) *)
| LogWarn (message : string) (subject : option string).
    (* logger.warn(`Failed to get symbol table for ${cls.Name}`) *)

(** The effects of the program outside the store: how many queries,
    random draws and clock readings it has made, what it logged at
    level [warn] or [error], and the anomaly lists it passed on for the
    report.  Calls of [logger.info] are not recorded. *)
Module Ext.
Record t := {
  queries : nat;
  draws : nat;
  ticks : nat;
  log : list LogEntry;
  reports : list (list Anomaly.t)
}.

Definition queried (s : t) : t :=
  {| queries := Datatypes.S (queries s); draws := draws s; ticks := ticks s;
     log := log s; reports := reports s |}.

Definition drawn (s : t) : t :=
  {| queries := queries s; draws := Datatypes.S (draws s); ticks := ticks s;
     log := log s; reports := reports s |}.

Definition ticked (s : t) : t :=
  {| queries := queries s; draws := draws s; ticks := Datatypes.S (ticks s);
     log := log s; reports := reports s |}.

Definition logged (entry : LogEntry) (s : t) : t :=
  {| queries := queries s; draws := draws s; ticks := ticks s;
     log := log s ++ [entry]; reports := reports s |}.

Definition reported (anomalies : list Anomaly.t) (s : t) : t :=
  {| queries := queries s; draws := draws s; ticks := ticks s;
     log := log s; reports := reports s ++ [anomalies] |}.
End Ext.

Section Primitives.

Variable world : World.t.

(** [await conn.query(...)] and [await conn.tooling.query(...)] *)
Definition send_query : M Ext.t QueryResult.t :=
  fun s => (World.query world (Ext.queries s), Ext.queried s).

(** [Math.random()] *)
Definition Math_random : M Ext.t float :=
  fun s => (Ok (World.random world (Ext.draws s)), Ext.drawn s).

(** [Date.now()] *)
Definition Date_now : M Ext.t float :=
  fun s => (Ok (World.now world (Ext.ticks s)), Ext.ticked s).

End Primitives.

(** [logger.warn] and [logger.error] *)
Definition logger (entry : LogEntry) : M Ext.t unit :=
  fun s => (Ok tt, Ext.logged entry s).

(** A string is truthy unless it is empty. *)
Definition truthy (s : string) : bool := negb (String.eqb s "").

(** [value || fallback] on a string that may be missing, and on a number. *)
Definition or_string (value : option string) (fallback : string) : string :=
  match value with
  | Some s => if truthy s then s else fallback
  | None => fallback
  end.

Definition or_number (value : option float) (fallback : float) : float :=
  match value with
  | Some x => if is_nan x || is_zero x then fallback else x
  | None => fallback
  end.

(** [new Date(Date.now() - hoursAgo * 60 * 60 * 1000).toISOString()] *)
Definition sinceDateStr (now hoursAgo : float) : outcome float :=
  JS.toISOString (JS.newDate (now - hoursAgo * 60 * 60 * 1000)%float).

Record Connection := { instanceUrl : string }.

(** ** [monitors/debug-log-monitor.js] *)

(** [counts[key] = (counts[key] || 0) + 1] *)
Definition increment (counts : gmap string nat) (key : string) : gmap string nat :=
  <[key := (default 0 (counts !! key) + 1)%nat]> counts.

Module DebugLogMonitor.

(** The body of the loop of [analyzeErrors]. *)
Definition count (acc : gmap string nat * gmap string nat) (error : ErrorRecord.t)
  : gmap string nat * gmap string nat :=
  let '(errorTypes, classErrors) := acc in
  (increment errorTypes (ErrorRecord.errorType error),
   if truthy (ErrorRecord.className error)
   then increment classErrors (ErrorRecord.className error)
   else classErrors).

Definition analyzeErrors (errors : list ErrorRecord.t) : ErrorSummary.t :=
  let '(errorTypes, classErrors) := fold_left count errors (∅, ∅) in
  {| ErrorSummary.totalErrors := length errors;
     ErrorSummary.uniqueErrorTypes := size errorTypes;
     ErrorSummary.errorTypes := errorTypes;
     ErrorSummary.classErrors := classErrors |}.

Section WithMonitor.

Variable world : World.t.
Variable config : Config.t.

(** The object pushed on [errors] for one [ApexLog] record. *)
Definition errorOf (log : SObject.t) : ErrorRecord.t :=
  {| ErrorRecord.timestamp := SObject.StartTime log;
     ErrorRecord.logId := SObject.Id log;
     ErrorRecord.errorType := or_string (SObject.Status log) "Unknown";
     ErrorRecord.errorMessage := SObject.Operation log;
     ErrorRecord.className := or_string (SObject.Location log) "Unknown";
     ErrorRecord.methodName := "";
     ErrorRecord.lineNumber := None |}.

(** The date window is computed before the [try]; the two queries
    are inside it. *)
Definition queryDebugLogs : M Ext.t (list ErrorRecord.t) :=
  let hoursAgo :=
    Config.Intervals.debugLogHours
      (Config.Monitoring.intervals (Config.monitoring config)) in
  now <- Date_now world ;;
  _ <- lift (sinceDateStr now hoursAgo) ;;
  try_catch
    (result <- send_query world ;;
     if (QueryResult.totalSize result =? 0)%nat then ret []
     else
       toolingResult <- send_query world ;;
       ret (map errorOf (QueryResult.records toolingResult)))
    (fun error =>
       logger (LogError "Failed to query debug logs" (message error)) ;;;
       ret []).

Definition monitor : M Ext.t DebugLogResults.t :=
  try_catch
    (errors <- queryDebugLogs ;;
     let summary := analyzeErrors errors in
     ret {| DebugLogResults.errors := errors; DebugLogResults.summary := summary |})
    (fun error =>
       logger (LogError "Debug log monitoring failed" (message error)) ;;;
       throw error).

End WithMonitor.

End DebugLogMonitor.

(** ** [monitors/governor-limit-monitor.js] *)

Module GovernorLimitMonitor.
Import LimitUsageRecord.

Definition percent (used limit : float) : float := (used / limit * 100)%float.

Definition soqlPercent (data : t) := percent (soqlQueriesUsed data) (soqlQueriesLimit data).
Definition dmlPercent (data : t) := percent (dmlStatementsUsed data) (dmlStatementsLimit data).
Definition cpuPercent (data : t) := percent (cpuTimeUsed data) (cpuTimeLimit data).
Definition heapPercent (data : t) := percent (heapSizeUsed data) (heapSizeLimit data).

Definition maxPercent (data : t) : float :=
  JS.Math_max [soqlPercent data; dmlPercent data; cpuPercent data; heapPercent data].

(** The object pushed on [highUsage]. *)
Definition entry (data : t) : HighUsage.t :=
  {| HighUsage.data := data;
     HighUsage.percentages :=
       {| Percentages.soql := JS.toFixed1 (soqlPercent data);
          Percentages.dml := JS.toFixed1 (dmlPercent data);
          Percentages.cpu := JS.toFixed1 (cpuPercent data);
          Percentages.heap := JS.toFixed1 (heapPercent data) |};
     HighUsage.maxPercent := JS.toFixed1 (maxPercent data) |}.

(** [if (!byClass[name]) byClass[name] = { count: 0, avgSoql: 0, ... }] *)
Definition ensure (byClass : gmap string ClassTotals.t) (name : string)
  : gmap string ClassTotals.t :=
  match byClass !! name with
  | Some _ => byClass
  | None =>
      <[name := {| ClassTotals.count := 0; ClassTotals.avgSoql := 0;
                   ClassTotals.avgDml := 0; ClassTotals.avgCpu := 0 |}]> byClass
  end.

(** [count++; avgSoql += soqlQueriesUsed; avgDml += ...; avgCpu += ...] *)
Definition add (data : t) (c : ClassTotals.t) : ClassTotals.t :=
  {| ClassTotals.count := Datatypes.S (ClassTotals.count c);
     ClassTotals.avgSoql := (ClassTotals.avgSoql c + soqlQueriesUsed data)%float;
     ClassTotals.avgDml := (ClassTotals.avgDml c + dmlStatementsUsed data)%float;
     ClassTotals.avgCpu := (ClassTotals.avgCpu c + cpuTimeUsed data)%float |}.

(** The body of the loop over [limitData]. *)
Definition step (thresholds : Config.GovernorLimits.t)
  (acc : list HighUsage.t * gmap string ClassTotals.t) (data : t)
  : list HighUsage.t * gmap string ClassTotals.t :=
  let '(highUsage, byClass) := acc in
  (if JS.ge (maxPercent data) (Config.GovernorLimits.soqlQueries thresholds)
   then highUsage ++ [entry data]
   else highUsage,
   alter (add data) (className data) (ensure byClass (className data))).

(** The body of the loop over the classes of [byClass]. *)
Definition average (c : ClassTotals.t) : ClassAverages.t :=
  let count := JS.of_nat (ClassTotals.count c) in
  {| ClassAverages.count := ClassTotals.count c;
     ClassAverages.avgSoql := JS.toFixed1 (ClassTotals.avgSoql c / count);
     ClassAverages.avgDml := JS.toFixed1 (ClassTotals.avgDml c / count);
     ClassAverages.avgCpu := JS.toFixed1 (ClassTotals.avgCpu c / count) |}.

Definition analyzeLimits (config : Config.t) (limitData : list t) : LimitAnalysis.t :=
  let thresholds := Config.Thresholds.governorLimits (Config.thresholds config) in
  let '(highUsage, byClass) := fold_left (step thresholds) limitData ([], ∅) in
  {| LimitAnalysis.highUsageCount := length highUsage;
     LimitAnalysis.highUsage := highUsage;
     LimitAnalysis.byClass := average <$> byClass |}.

Section WithMonitor.

Variable world : World.t.
Variable config : Config.t.

(** The object pushed on [limitData] for one [ApexLog] record: three
    of the "used" values are random placeholders. *)
Definition limitOf (log : SObject.t) : M Ext.t t :=
  soql <- Math_random world ;;
  dml <- Math_random world ;;
  heap <- Math_random world ;;
  ret {| timestamp := SObject.StartTime log;
         className := or_string (SObject.Location log) "Unknown";
         methodName := or_string (SObject.Operation log) "";
         soqlQueriesUsed := JS.Math_floor (soql * 100);
         soqlQueriesLimit := 100;
         dmlStatementsUsed := JS.Math_floor (dml * 150);
         dmlStatementsLimit := 150;
         cpuTimeUsed := or_number (SObject.DurationMilliseconds log) 0;
         cpuTimeLimit := 10000;
         heapSizeUsed := JS.Math_floor (heap * 6000000);
         heapSizeLimit := 6000000 |}.

(** Here the date window is computed inside the [try]. *)
Definition extractLimitData : M Ext.t (list t) :=
  try_catch
    (let hoursAgo :=
       Config.Intervals.debugLogHours
         (Config.Monitoring.intervals (Config.monitoring config)) in
     now <- Date_now world ;;
     _ <- lift (sinceDateStr now hoursAgo) ;;
     result <- send_query world ;;
     for_each limitOf (QueryResult.records result))
    (fun error =>
       logger (LogError "Failed to extract limit data" (message error)) ;;;
       ret []).

Definition monitor : M Ext.t GovernorLimitResults.t :=
  try_catch
    (limitData <- extractLimitData ;;
     let analysis := analyzeLimits config limitData in
     ret {| GovernorLimitResults.limitData := limitData;
            GovernorLimitResults.analysis := analysis |})
    (fun error =>
       logger (LogError "Governor limit monitoring failed" (message error)) ;;;
       throw error).

End WithMonitor.

End GovernorLimitMonitor.

(** ** [monitors/code-quality-monitor.js] *)

Module CodeQualityMonitor.

Section WithMonitor.

Variable world : World.t.
Variable config : Config.t.

(** The loop over [symbolTable.methods]. *)
Fixpoint methodLoop (methods : list SymbolTable.method)
  (totalComplexity : float) (methodCount : nat) : M Ext.t (float * nat) :=
  match methods with
  | [] => ret (totalComplexity, methodCount)
  | _ :: rest =>
      r <- Math_random world ;;
      methodLoop rest (totalComplexity + JS.Math_floor (r * 20))%float
        (Datatypes.S methodCount)
  end.

Definition calculateComplexity (symbolTable : option SymbolTable.t) : M Ext.t float :=
  match symbolTable with
  | None => ret 0%float
  | Some table =>
      match SymbolTable.methods table with
      | None => ret 0%float
      | Some methods =>
          totals <- methodLoop methods 0%float 0%nat ;;
          let '(totalComplexity, methodCount) := totals in
          ret (if (0 <? methodCount)%nat
               then JS.Math_ceil (totalComplexity / JS.of_nat methodCount)
               else 0%float)
      end
  end.

(** The body of the loop over the classes: the symbol table query
    has a [try] of its own. *)
Definition classOf (cls : SObject.t) : M Ext.t ApexClass.t :=
  symbolTable <-
    try_catch
      (symbolResult <- send_query world ;;
       ret (match QueryResult.records symbolResult with
            | first :: _ => SObject.SymbolTable first
            | [] => None
            end))
      (fun e =>
         logger (LogWarn "Failed to get symbol table for" (SObject.Name cls)) ;;;
         ret None) ;;
  complexity <- calculateComplexity symbolTable ;;
  ret {| ApexClass.name := SObject.Name cls;
         ApexClass.length := or_number (SObject.LengthWithoutComments cls) 0;
         ApexClass.complexity := complexity;
         ApexClass.apiVersion := SObject.ApiVersion cls;
         ApexClass.testCoverage := None |}.

Definition analyzeApexClasses : M Ext.t (list ApexClass.t) :=
  try_catch
    (result <- send_query world ;;
     for_each classOf (QueryResult.records result))
    (fun error =>
       logger (LogError "Failed to analyze Apex classes" (message error)) ;;;
       ret []).

Definition classIssues (cls : ApexClass.t) : list ClassIssue :=
  let thresholds := Config.Thresholds.codeQuality (Config.thresholds config) in
  (if JS.gt (ApexClass.complexity cls) (Config.CodeQuality.cyclomaticComplexity thresholds)
   then [HighComplexity (ApexClass.complexity cls)] else [])
  ++ (if JS.gt (ApexClass.length cls) (Config.CodeQuality.classLength thresholds)
      then [ClassTooLong (ApexClass.length cls)] else [])
  ++ (match ApexClass.testCoverage cls with
      | Some coverage =>
          if JS.lt coverage (Config.CodeQuality.minTestCoverage thresholds)
          then [LowTestCoverage coverage] else []
      | None => []
      end).

Definition identifyIssues (classes : list ApexClass.t) : list QualityIssue.t :=
  flat_map
    (fun cls =>
       let found := classIssues cls in
       if (0 <? length found)%nat then
         [ {| QualityIssue.className := ApexClass.name cls;
              QualityIssue.issues := found;
              QualityIssue.metrics :=
                {| Metrics.complexity := ApexClass.complexity cls;
                   Metrics.length := ApexClass.length cls;
                   Metrics.coverage := ApexClass.testCoverage cls |} |} ]
       else [])
    classes.

Definition monitor : M Ext.t CodeQualityResults.t :=
  try_catch
    (classes <- analyzeApexClasses ;;
     let issues := identifyIssues classes in
     ret {| CodeQualityResults.classes := classes;
            CodeQualityResults.issues := issues |})
    (fun error =>
       logger (LogError "Code quality monitoring failed" (message error)) ;;;
       throw error).

End WithMonitor.

End CodeQualityMonitor.

(** ** [analyzers/anomaly-detector.js] *)

Module AnomalyDetector.

(** [new AnomalyDetector(database, config)]: the detector keeps the
    store handle it is given, whatever its type. *)
Record t {Database : Type} := { db : Database; config : Config.t }.
Arguments t : clear implicits.

Section WithDetector.
Context {Database : Type}.
Variable this : t Database.

Definition detectErrorAnomalies (debugLogResults : DebugLogResults.t)
  : list Anomaly.t :=
  let errors := DebugLogResults.errors debugLogResults in
  let summary := DebugLogResults.summary debugLogResults in
  let thresholds := Config.Thresholds.errorRate (Config.thresholds (config this)) in
  (if JS.ge (JS.of_nat (length errors)) (Config.ErrorRate.absoluteCount thresholds)
   then [ {| Anomaly.type := HIGH_ERROR_RATE;
             Anomaly.severity := HIGH;
             Anomaly.description := ErrorsDetected (length errors);
             Anomaly.details :=
               ErrorRateDetails (length errors)
                 (Config.ErrorRate.absoluteCount thresholds)
                 (ErrorSummary.errorTypes summary) |} ]
   else [])
  ++ (if (5 <? ErrorSummary.uniqueErrorTypes summary)%nat
      then [ {| Anomaly.type := MULTIPLE_ERROR_TYPES;
                Anomaly.severity := MEDIUM;
                Anomaly.description :=
                  DifferentErrorTypes (ErrorSummary.uniqueErrorTypes summary);
                Anomaly.details :=
                  ErrorTypesDetails (ErrorSummary.errorTypes summary) |} ]
      else []).

(** The severity chosen for one element of [highUsage]. *)
Definition limitSeverity (usage : HighUsage.t) : Severity :=
  if JS.ge (JS.parseFloat (HighUsage.maxPercent usage)) 90 then CRITICAL
  else if JS.ge (JS.parseFloat (HighUsage.maxPercent usage)) 80 then HIGH
  else MEDIUM.

Definition limitAnomaly (usage : HighUsage.t) : Anomaly.t :=
  let data := HighUsage.data usage in
  {| Anomaly.type := HIGH_GOVERNOR_LIMIT_USAGE;
     Anomaly.severity := limitSeverity usage;
     Anomaly.description :=
       ApproachingLimits (LimitUsageRecord.className data) (HighUsage.maxPercent usage);
     Anomaly.details :=
       LimitDetails (LimitUsageRecord.className data)
         (LimitUsageRecord.methodName data)
         (HighUsage.percentages usage) (HighUsage.maxPercent usage) |}.

Definition detectLimitAnomalies (limitResults : GovernorLimitResults.t)
  : list Anomaly.t :=
  let analysis := GovernorLimitResults.analysis limitResults in
  if (0 <? LimitAnalysis.highUsageCount analysis)%nat
  then map limitAnomaly (LimitAnalysis.highUsage analysis)
  else [].

Definition qualityAnomaly (issue : QualityIssue.t) : Anomaly.t :=
  {| Anomaly.type := CODE_QUALITY_ISSUE;
     Anomaly.severity :=
       if (3 <=? length (QualityIssue.issues issue))%nat then MEDIUM else LOW;
     Anomaly.description :=
       QualityIssues (QualityIssue.className issue)
         (length (QualityIssue.issues issue));
     Anomaly.details :=
       QualityDetails (QualityIssue.className issue) (QualityIssue.issues issue)
         (QualityIssue.metrics issue) |}.

Definition detectQualityAnomalies (qualityResults : CodeQualityResults.t)
  : list Anomaly.t :=
  map qualityAnomaly (CodeQualityResults.issues qualityResults).

Definition detect (monitoringResults : MonitoringResults.t) : list Anomaly.t :=
  (match MonitoringResults.debugLogs monitoringResults with
   | Some debugLogs => detectErrorAnomalies debugLogs
   | None => []
   end)
  ++ (match MonitoringResults.governorLimits monitoringResults with
      | Some governorLimits => detectLimitAnomalies governorLimits
      | None => []
      end)
  ++ (match MonitoringResults.codeQuality monitoringResults with
      | Some codeQuality => detectQualityAnomalies codeQuality
      | None => []
      end).

End WithDetector.

End AnomalyDetector.

(** ** [storage/database.js] *)

Module RunRow.
(** A row of [monitoring_runs]. *)
Record t := { id : N; status : string; duration_ms : option float }.
End RunRow.

Module Tables.
(** The tables the run writes; [sequence] is the last id that
    AUTOINCREMENT gave to a run (ids start at 1).  A row of the three
    other tables is kept with its [run_id]. *)
Record t := {
  sequence : N;
  monitoring_runs : list RunRow.t;
  debug_log_errors : list (N * ErrorRecord.t);
  governor_limits : list (N * LimitUsageRecord.t);
  anomalies : list (N * Anomaly.t)
}.

(** [INSERT INTO monitoring_runs (status) VALUES ('running')] *)
Definition started (tables : t) : t :=
  {| sequence := (sequence tables + 1)%N;
     monitoring_runs :=
       monitoring_runs tables
       ++ [ {| RunRow.id := (sequence tables + 1)%N; RunRow.status := "running";
               RunRow.duration_ms := None |} ];
     debug_log_errors := debug_log_errors tables;
     governor_limits := governor_limits tables;
     anomalies := anomalies tables |}.

(** [UPDATE monitoring_runs SET status = ?, duration_ms = ? WHERE id = ?] *)
Definition ended (runId : N) (status : string) (durationMs : float) (tables : t) : t :=
  {| sequence := sequence tables;
     monitoring_runs :=
       map (fun row =>
              if (RunRow.id row =? runId)%N
              then {| RunRow.id := RunRow.id row; RunRow.status := status;
                      RunRow.duration_ms := Some durationMs |}
              else row)
         (monitoring_runs tables);
     debug_log_errors := debug_log_errors tables;
     governor_limits := governor_limits tables;
     anomalies := anomalies tables |}.

(** The three bulk inserts: one row per element, with the run id. *)
Definition with_errors (runId : N) (errors : list ErrorRecord.t) (tables : t) : t :=
  {| sequence := sequence tables;
     monitoring_runs := monitoring_runs tables;
     debug_log_errors := debug_log_errors tables ++ map (pair runId) errors;
     governor_limits := governor_limits tables;
     anomalies := anomalies tables |}.

Definition with_limits (runId : N) (limits : list LimitUsageRecord.t) (tables : t) : t :=
  {| sequence := sequence tables;
     monitoring_runs := monitoring_runs tables;
     debug_log_errors := debug_log_errors tables;
     governor_limits := governor_limits tables ++ map (pair runId) limits;
     anomalies := anomalies tables |}.

Definition with_anomalies (runId : N) (found : list Anomaly.t) (tables : t) : t :=
  {| sequence := sequence tables;
     monitoring_runs := monitoring_runs tables;
     debug_log_errors := debug_log_errors tables;
     governor_limits := governor_limits tables;
     anomalies := anomalies tables ++ map (pair runId) found |}.
End Tables.

Module MonitoringDatabase.

(** The store: its tables, and the number of method calls made on it. *)
Record t := { calls : nat; tables : Tables.t }.

Section WithWorld.

Variable world : World.t.

(** A method of the store either fails, and leaves the tables as
    they were (a bulk insert runs in one transaction), or takes
    effect as a whole. *)
Definition call {A} (result : Tables.t -> A) (effect : Tables.t -> Tables.t) : M t A :=
  fun this =>
    match World.store world (calls this) with
    | Some error =>
        (Throw error, {| calls := Datatypes.S (calls this); tables := tables this |})
    | None =>
        (Ok (result (tables this)),
         {| calls := Datatypes.S (calls this); tables := effect (tables this) |})
    end.

(** Returns [lastInsertRowid]. *)
Definition startRun : M t N :=
  call (fun tables => (Tables.sequence tables + 1)%N) Tables.started.

Definition endRun (runId : N) (status : string) (durationMs : float) : M t unit :=
  call (fun _ => tt) (Tables.ended runId status durationMs).

Definition insertDebugLogErrors (runId : N) (errors : list ErrorRecord.t) : M t unit :=
  call (fun _ => tt) (Tables.with_errors runId errors).

Definition insertGovernorLimits (runId : N) (limits : list LimitUsageRecord.t)
  : M t unit :=
  call (fun _ => tt) (Tables.with_limits runId limits).

Definition insertAnomalies (runId : N) (anomalies : list Anomaly.t) : M t unit :=
  call (fun _ => tt) (Tables.with_anomalies runId anomalies).

End WithWorld.

End MonitoringDatabase.

(** ** [auth/salesforce-auth.js] *)

Module SalesforceAuth.

(** The module-level singleton: [conn] is [null] until a login succeeds. *)
Record t := { conn : option Connection }.

(** [authenticate()]: the login is retried with the defaults of
    [retry]; [this.conn] is set only when it succeeds. *)
Definition authenticate {S : Type} (login : S -> outcome unit * S)
    (fresh : Connection) (this : t) (s : S)
  : outcome Connection * (t * S * list Retry.event) :=
  match Retry.retry login 3 1000 s with
  | (Ok _, (s', events)) => (Ok fresh, ({| conn := Some fresh |}, s', events))
  | (Throw error, (s', events)) => (Throw error, (this, s', events))
  end.

Definition getConnection (this : t) : outcome Connection :=
  match conn this with
  | None => Throw (mkError "Error" "Not authenticated. Call authenticate() first.")
  | Some c => Ok c
  end.

Definition isAuthenticated (this : t) : bool :=
  match conn this with Some _ => true | None => false end.

End SalesforceAuth.

(** ** [notifications/notifier.js] *)

Module Notifier.

(** [notify] catches whatever its body throws, and so do the two
    helpers that save and mail the report: seen from the run, it
    either skips the report or produces it. *)
Definition notify (config : Config.t) (anomalies : list Anomaly.t)
    (monitoringResults : MonitoringResults.t) : M Ext.t unit :=
  if (length anomalies =? 0)%nat
     && Config.Notifications.email_onAnomalyOnly (Config.notifications config)
  then ret tt
  else fun s => (Ok tt, Ext.reported anomalies s).

End Notifier.

(** ** [orchestrator.js] *)

Module Sys.
(** The state a run works on: the outside effects and the store. *)
Record t := { ext : Ext.t; db : MonitoringDatabase.t }.
End Sys.

Definition on_ext {A} (m : M Ext.t A) : M Sys.t A :=
  fun s =>
    let '(r, ext') := m (Sys.ext s) in
    (r, {| Sys.ext := ext'; Sys.db := Sys.db s |}).

Definition on_db {A} (m : M MonitoringDatabase.t A) : M Sys.t A :=
  fun s =>
    let '(r, db') := m (Sys.db s) in
    (r, {| Sys.ext := Sys.ext s; Sys.db := db' |}).

Module RunResult.
(** What [run] returns. *)
Inductive t :=
| Success (runId : N) (duration : float) (anomalies : nat) (results : MonitoringResults.t)
    (* { success: true, runId, duration, anomalies: anomalies.length, results } *)
| Failure (error : string).
    (* { success: false, error: error.message } *)
End RunResult.

Module MonitoringOrchestrator.

Section WithMonitors.

Variable world : World.t.
Variable config : Config.t.
Variable salesforceAuth : SalesforceAuth.t.

(** [new DebugLogMonitor(conn, this.config).monitor()] and its two
    siblings: the run only relies on their being monitors. *)
Variable debugLogMonitor : Connection -> M Ext.t DebugLogResults.t.
Variable governorLimitMonitor : Connection -> M Ext.t GovernorLimitResults.t.
Variable codeQualityMonitor : Connection -> M Ext.t CodeQualityResults.t.

Let enabled := Config.Monitoring.enabled (Config.monitoring config).

Definition runDebugLogs (runId : N) (conn : Connection)
  : M Sys.t (option DebugLogResults.t) :=
  if Config.Enabled.debugLogs enabled then
    debugLogs <- on_ext (debugLogMonitor conn) ;;
    (if (0 <? length (DebugLogResults.errors debugLogs))%nat
     then on_db (MonitoringDatabase.insertDebugLogErrors world runId
                   (DebugLogResults.errors debugLogs))
     else ret tt) ;;;
    ret (Some debugLogs)
  else ret None.

Definition runGovernorLimits (runId : N) (conn : Connection)
  : M Sys.t (option GovernorLimitResults.t) :=
  if Config.Enabled.governorLimits enabled then
    governorLimits <- on_ext (governorLimitMonitor conn) ;;
    (if (0 <? length (GovernorLimitResults.limitData governorLimits))%nat
     then on_db (MonitoringDatabase.insertGovernorLimits world runId
                   (GovernorLimitResults.limitData governorLimits))
     else ret tt) ;;;
    ret (Some governorLimits)
  else ret None.

Definition runCodeQuality (conn : Connection) : M Sys.t (option CodeQualityResults.t) :=
  if Config.Enabled.codeQuality enabled then
    codeQuality <- on_ext (codeQualityMonitor conn) ;;
    ret (Some codeQuality)
  else ret None.

(** The [try] block, from [getConnection] on. *)
Definition tryBlock (startTime : float) (runId : N) : M Sys.t RunResult.t :=
  conn <- lift (SalesforceAuth.getConnection salesforceAuth) ;;
  debugLogs <- runDebugLogs runId conn ;;
  governorLimits <- runGovernorLimits runId conn ;;
  codeQuality <- runCodeQuality conn ;;
  let results :=
    {| MonitoringResults.debugLogs := debugLogs;
       MonitoringResults.governorLimits := governorLimits;
       MonitoringResults.codeQuality := codeQuality |} in
  let anomalyDetector := {| AnomalyDetector.db := tt; AnomalyDetector.config := config |} in
  let anomalies := AnomalyDetector.detect anomalyDetector results in
  (if (0 <? length anomalies)%nat
   then on_db (MonitoringDatabase.insertAnomalies world runId anomalies)
   else ret tt) ;;;
  on_ext (Notifier.notify config anomalies results) ;;;
  now <- on_ext (Date_now world) ;;
  let duration := (now - startTime)%float in
  on_db (MonitoringDatabase.endRun world runId "completed" duration) ;;;
  ret (RunResult.Success runId duration (length anomalies) results).

(** The [catch] block; [runId] is still [undefined] when [startRun]
    itself threw. *)
Definition catchBlock (startTime : float) (runId : option N) (error : Error)
  : M Sys.t RunResult.t :=
  now <- on_ext (Date_now world) ;;
  let duration := (now - startTime)%float in
  (match runId with
   | Some id =>
       if (id =? 0)%N then ret tt
       else on_db (MonitoringDatabase.endRun world id "failed" duration)
   | None => ret tt
   end) ;;;
  on_ext (logger (LogError "Monitoring run failed" (message error))) ;;;
  ret (RunResult.Failure (message error)).

Definition run_with : M Sys.t RunResult.t :=
  startTime <- on_ext (Date_now world) ;;
  fun s =>
    match on_db (MonitoringDatabase.startRun world) s with
    | (Throw error, s') => catchBlock startTime None error s'
    | (Ok runId, s') =>
        try_catch (tryBlock startTime runId) (catchBlock startTime (Some runId)) s'
    end.

End WithMonitors.

(** The run of the agent, with its three monitors. *)
Definition run (world : World.t) (config : Config.t) (salesforceAuth : SalesforceAuth.t)
  : M Sys.t RunResult.t :=
  run_with world config salesforceAuth
    (fun conn => DebugLogMonitor.monitor world config)
    (fun conn => GovernorLimitMonitor.monitor world config)
    (fun conn => CodeQualityMonitor.monitor world config).

End MonitoringOrchestrator.

(** ** The keys of an object, in the order [Object.keys] lists them *)

Module JSObject.







End JSObject.

(** ** [analyzeErrors]: the most common error *)

Module ErrorRanking.






End ErrorRanking.

(** ** [notifications/notifier.js], with its files and its mails

    The run above sees [notify] as a whole.  Here are its parts: the
    report, the file it is saved to and the mail it is sent with.  The
    page is kept as the data it shows, without its time stamp: the four
    numbers of the summary and the anomalies of the list, an empty list
    standing for the "No Anomalies Detected" section. *)

Module Report.
Record t := {
  anomaliesDetected : nat;
  debugLogErrors : nat;
  highLimitUsage : nat;
  codeQualityIssues : nat;
  detected : list Anomaly.t
}.
End Report.

(** The subject of the mail: the alert with the number of anomalies, or
    the all-clear. *)
Inductive Subject :=
| Alert (anomalies : nat)
| AllClear.

Module Mail.
Record t := { subject : Subject; html : Report.t }.
End Mail.

(** What the notifier leaves outside the program: the reports written
    to the output directory, the mails handed to the transport, and
    the log. *)
Module Outbox.
Record t := {
  saves : nat;
  sends : nat;
  files : list Report.t;
  mails : list Mail.t;
  log : list LogEntry
}.
End Outbox.

(** The file system and the mail transport: for each attempt to save a
    report, and for each attempt to send a mail, the error it fails
    with, if any. *)
Module Postal.
Record t := {
  writeReport : nat -> option Error;
  sendMail : nat -> option Error
}.
End Postal.

Module Notifications.

(** [new Notifier(config)]: the transporter stays [null] unless the
    email option is enabled and [createTransport] returns. *)
Record t := { config : Config.t; transporter : bool }.

Definition logged (entry : LogEntry) : M Outbox.t unit :=
  fun s =>
    (Ok tt,
     {| Outbox.saves := Outbox.saves s; Outbox.sends := Outbox.sends s;
        Outbox.files := Outbox.files s; Outbox.mails := Outbox.mails s;
        Outbox.log := Outbox.log s ++ [entry] |}).

(** [setupEmailTransporter()] *)
Definition setupEmailTransporter (createTransport : outcome unit) : M Outbox.t bool :=
  try_catch
    (_ <- lift createTransport ;; ret true)
    (fun error =>
       logged (LogError "Failed to setup email transporter" (message error)) ;;;
       ret false).

Definition construct (config : Config.t) (createTransport : outcome unit)
  : M Outbox.t t :=
  if Config.Notifications.email_enabled (Config.notifications config) then
    transporter <- setupEmailTransporter createTransport ;;
    ret {| config := config; transporter := transporter |}
  else ret {| config := config; transporter := false |}.

(** [generateReport]: [x?.y?.length || 0] is 0 for a missing snapshot. *)
Definition generateReport (anomalies : list Anomaly.t)
    (monitoringResults : MonitoringResults.t) : Report.t :=
  {| Report.anomaliesDetected := length anomalies;
     Report.debugLogErrors :=
       match MonitoringResults.debugLogs monitoringResults with
       | Some debugLogs => length (DebugLogResults.errors debugLogs)
       | None => 0
       end;
     Report.highLimitUsage :=
       match MonitoringResults.governorLimits monitoringResults with
       | Some governorLimits =>
           LimitAnalysis.highUsageCount (GovernorLimitResults.analysis governorLimits)
       | None => 0
       end;
     Report.codeQualityIssues :=
       match MonitoringResults.codeQuality monitoringResults with
       | Some codeQuality => length (CodeQualityResults.issues codeQuality)
       | None => 0
       end;
     Report.detected := anomalies |}.

Section WithPostal.

Variable postal : Postal.t.

(** The directory check and [fs.writeFileSync], as one attempt. *)
Definition writeFile (report : Report.t) : M Outbox.t unit :=
  fun s =>
    match Postal.writeReport postal (Outbox.saves s) with
    | Some error =>
        (Throw error,
         {| Outbox.saves := Datatypes.S (Outbox.saves s); Outbox.sends := Outbox.sends s;
            Outbox.files := Outbox.files s; Outbox.mails := Outbox.mails s;
            Outbox.log := Outbox.log s |})
    | None =>
        (Ok tt,
         {| Outbox.saves := Datatypes.S (Outbox.saves s); Outbox.sends := Outbox.sends s;
            Outbox.files := Outbox.files s ++ [report]; Outbox.mails := Outbox.mails s;
            Outbox.log := Outbox.log s |})
    end.

(** [await this.transporter.sendMail({ ..., subject, html })] *)
Definition transport (mail : Mail.t) : M Outbox.t unit :=
  fun s =>
    match Postal.sendMail postal (Outbox.sends s) with
    | Some error =>
        (Throw error,
         {| Outbox.saves := Outbox.saves s; Outbox.sends := Datatypes.S (Outbox.sends s);
            Outbox.files := Outbox.files s; Outbox.mails := Outbox.mails s;
            Outbox.log := Outbox.log s |})
    | None =>
        (Ok tt,
         {| Outbox.saves := Outbox.saves s; Outbox.sends := Datatypes.S (Outbox.sends s);
            Outbox.files := Outbox.files s; Outbox.mails := Outbox.mails s ++ [mail];
            Outbox.log := Outbox.log s |})
    end.

Definition saveReport (report : Report.t) : M Outbox.t unit :=
  try_catch (writeFile report)
    (fun error => logged (LogError "Failed to save report" (message error))).

Definition sendEmail (this : t) (anomalies : list Anomaly.t) (htmlReport : Report.t)
  : M Outbox.t unit :=
  if negb (transporter this) then
    logged (LogWarn "Email transporter not configured, skipping email" None)
  else
    try_catch
      (let subject :=
         if (0 <? length anomalies)%nat then Alert (length anomalies) else AllClear in
       transport {| Mail.subject := subject; Mail.html := htmlReport |})
      (fun error => logged (LogError "Failed to send email" (message error))).

Definition notify (this : t) (anomalies : list Anomaly.t)
    (monitoringResults : MonitoringResults.t) : M Outbox.t unit :=
  let notifications := Config.notifications (config this) in
  try_catch
    (if (length anomalies =? 0)%nat
        && Config.Notifications.email_onAnomalyOnly notifications
     then ret tt
     else
       let report := generateReport anomalies monitoringResults in
       (if Config.Notifications.reports_generateHtml notifications
        then saveReport report else ret tt) ;;;
       (if Config.Notifications.email_enabled notifications
        then sendEmail this anomalies report else ret tt))
    (fun error => logged (LogError "Failed to send notifications" (message error))).

End WithPostal.

End Notifications.

(** ** [index.js]: the start-up and the end of the process

    The configuration file has been read: [main] is taken after
    [new MonitoringOrchestrator()].  Closing the database does not
    throw. *)

Module Agent.

(** What the start-up meets outside the program: whether the
    database file can be opened, whether the mail transport can be
    created, what the login answers, the connection a successful
    login gives, and whether the scheduler accepts its schedule. *)
Record Boot {S : Type} := {
  openDatabase : option Error;
  createTransport : outcome unit;
  login : S -> outcome unit * S;
  fresh : Connection;
  schedule : option Error
}.
Arguments Boot : clear implicits.

(** The process: the state of the run, the connection singleton, the
    state of the login service with what [retry] did, and whether
    the database handle is open and the scheduler started. *)
Record t {S : Type} := {
  sys : Sys.t;
  auth : SalesforceAuth.t;
  service : S;
  retries : list Retry.event;
  databaseOpen : bool;
  scheduled : bool
}.
Arguments t : clear implicits.

(** How [main] ends: with [process.exit(code)], or with the process
    left alive, waiting for the scheduler and the signals. *)
Inductive ending :=
| Exit (code : nat)
| Waiting.

Section WithBoot.

Context {S : Type}.
Variable world : World.t.
Variable config : Config.t.
Variable boot : Boot S.

Definition on_sys {A} (m : M Sys.t A) : M (t S) A :=
  fun a =>
    let '(r, sys') := m (sys a) in
    (r, {| sys := sys'; auth := auth a; service := service a; retries := retries a;
           databaseOpen := databaseOpen a; scheduled := scheduled a |}).

Definition log (entry : LogEntry) : M (t S) unit := on_sys (on_ext (logger entry)).

(** [this.db.initialize()] *)
Definition initializeDatabase : M (t S) unit :=
  try_catch
    (fun a =>
       match openDatabase boot with
       | Some error => (Throw error, a)
       | None =>
           (Ok tt,
            {| sys := sys a; auth := auth a; service := service a;
               retries := retries a; databaseOpen := true;
               scheduled := scheduled a |})
       end)
    (fun error =>
       log (LogError "Failed to initialize database" (message error)) ;;;
       throw error).

(** [new Notifier(this.config)]: a transport that cannot be created
    is logged. *)
Definition newNotifier : M (t S) unit :=
  if Config.Notifications.email_enabled (Config.notifications config) then
    match createTransport boot with
    | Ok _ => ret tt
    | Throw error => log (LogError "Failed to setup email transporter" (message error))
    end
  else ret tt.

(** [await salesforceAuth.authenticate()], with the log entry of
    its [catch]. *)
Definition authenticate : M (t S) Connection :=
  fun a =>
    match SalesforceAuth.authenticate (login boot) (fresh boot) (auth a) (service a) with
    | (Ok conn, (auth', service', events)) =>
        (Ok conn,
         {| sys := sys a; auth := auth'; service := service';
            retries := retries a ++ events; databaseOpen := databaseOpen a;
            scheduled := scheduled a |})
    | (Throw error, (auth', service', events)) =>
        (_ <- log (LogError "Failed to authenticate to Salesforce" (message error)) ;;
         throw error)
          {| sys := sys a; auth := auth'; service := service';
             retries := retries a ++ events; databaseOpen := databaseOpen a;
             scheduled := scheduled a |}
    end.

(** [orchestrator.initialize()] *)
Definition initialize : M (t S) unit :=
  try_catch
    (initializeDatabase ;;;
     newNotifier ;;;
     _ <- authenticate ;;
     ret tt)
    (fun error =>
       log (LogError "Failed to initialize orchestrator" (message error)) ;;;
       throw error).

(** [orchestrator.run()], with the singleton as it is then. *)
Definition run : M (t S) RunResult.t :=
  fun a => on_sys (MonitoringOrchestrator.run world config (auth a)) a.

(** [orchestrator.cleanup()] *)
Definition cleanup : M (t S) unit :=
  fun a =>
    (Ok tt,
     {| sys := sys a; auth := auth a; service := service a; retries := retries a;
        databaseOpen := false; scheduled := scheduled a |}).

(** [scheduler.start()] *)
Definition startScheduler : M (t S) unit :=
  fun a =>
    match schedule boot with
    | Some error => (Throw error, a)
    | None =>
        (Ok tt,
         {| sys := sys a; auth := auth a; service := service a; retries := retries a;
            databaseOpen := databaseOpen a; scheduled := true |})
    end.

(** [main()]: [process.exit] ends the process where it is called. *)
Definition main (runOnce : bool) : M (t S) ending :=
  try_catch
    (initialize ;;;
     if runOnce then
       _ <- run ;;
       cleanup ;;;
       ret (Exit 0)
     else
       startScheduler ;;;
       _ <- run ;;
       ret Waiting)
    (fun error =>
       log (LogError "Fatal error" (message error)) ;;;
       cleanup ;;;
       ret (Exit 1)).

End WithBoot.

End Agent.

(** * Quantities the properties speak of *)

(** The sleeps of a retry, in order, and the number of times it
    invoked the operation. *)
Definition sleeps (log : list Retry.event) : list Z :=
  flat_map (fun ev => match ev with Retry.Sleep ms => [ms] | _ => [] end) log.

Definition invocations (log : list Retry.event) : nat :=
  length (List.filter (fun ev => match ev with Retry.Invoke _ => true | _ => false end) log).






(** The row of a run that was closed with the given status. *)
Definition closed (runId : N) (status : string) (duration : float) : RunRow.t :=
  {| RunRow.id := runId; RunRow.status := status; RunRow.duration_ms := Some duration |}.

(** The state an operation is left in by [n] invocations in a row that
    all throw, starting from [s]; [None] if one of them returns. *)
Fixpoint after_failures {S T : Type} (fn : S -> outcome T * S) (n : nat) (s : S)
  : option S :=
  match n with
  | O => Some s
  | Datatypes.S n' =>
      match fn s with
      | (Throw _, s') => after_failures fn n' s'
      | (Ok _, _) => None
      end
  end.

(** The sleep that follows the failure of attempt [k]. *)
Definition backoff (delay : Z) (k : nat) : Z := delay * 2 ^ (Z.of_nat k - 1).

(** Whether a retry logged that all its attempts failed. *)
Definition gave_up (log : list Retry.event) : bool :=
  existsb (fun ev => match ev with Retry.LogError _ _ => true | _ => false end) log.



(** The outside effects after [n] more calls of [Math.random()]. *)
Definition after_draws (n : nat) (s : Ext.t) : Ext.t :=
  {| Ext.queries := Ext.queries s; Ext.draws := (n + Ext.draws s)%nat;
     Ext.ticks := Ext.ticks s; Ext.log := Ext.log s; Ext.reports := Ext.reports s |}.


(** What [analyzeApexClasses] copies from an [ApexClass] record into
    the object it builds for the class. *)
Definition describes (cls : SObject.t) (class : ApexClass.t) : Prop :=
  ApexClass.name class = SObject.Name cls
  /\ ApexClass.length class = or_number (SObject.LengthWithoutComments cls) 0
  /\ ApexClass.apiVersion class = SObject.ApiVersion cls
  /\ ApexClass.testCoverage class = None.

(** The object that [identifyIssues] pushes for a class with issues. *)
Definition issueOf (config : Config.t) (cls : ApexClass.t) : QualityIssue.t :=
  {| QualityIssue.className := ApexClass.name cls;
     QualityIssue.issues := CodeQualityMonitor.classIssues config cls;
     QualityIssue.metrics :=
       {| Metrics.complexity := ApexClass.complexity cls;
          Metrics.length := ApexClass.length cls;
          Metrics.coverage := ApexClass.testCoverage cls |} |}.

(** Whether a class is over one of the three thresholds. *)
Definition exceeds (config : Config.t) (cls : ApexClass.t) : bool :=
  let thresholds := Config.Thresholds.codeQuality (Config.thresholds config) in
  JS.gt (ApexClass.complexity cls) (Config.CodeQuality.cyclomaticComplexity thresholds)
  || JS.gt (ApexClass.length cls) (Config.CodeQuality.classLength thresholds)
  || match ApexClass.testCoverage cls with
     | Some coverage => JS.lt coverage (Config.CodeQuality.minTestCoverage thresholds)
     | None => false
     end.

(** The severities that go with each type of anomaly. *)
Definition severity_of_type (type : AnomalyType) (severity : Severity) : bool :=
  match type, severity with
  | HIGH_ERROR_RATE, HIGH => true
  | MULTIPLE_ERROR_TYPES, MEDIUM => true
  | HIGH_GOVERNOR_LIMIT_USAGE, (MEDIUM | HIGH | CRITICAL) => true
  | CODE_QUALITY_ISSUE, (LOW | MEDIUM) => true
  | _, _ => false
  end.

(** The anomalies of a given type, in order. *)
Definition of_type (type : AnomalyType) (anomalies : list Anomaly.t) : list Anomaly.t :=
  List.filter (fun a => bool_decide (Anomaly.type a = type)) anomalies.

(** The ids of the rows of [monitoring_runs] are ids that AUTOINCREMENT
    has given out: none is above [sequence]. *)
Definition well_numbered (tables : Tables.t) : Prop :=
  Forall (fun row => (RunRow.id row <= Tables.sequence tables)%N)
    (Tables.monitoring_runs tables).

(** The rows of [monitoring_runs] in a state of the run. *)
Definition runs_of (s : Sys.t) : list RunRow.t :=
  Tables.monitoring_runs (MonitoringDatabase.tables (Sys.db s)).

(** A piece of the run leaves [monitoring_runs] alone. *)
Definition same_runs (s s' : Sys.t) : Prop :=
  runs_of s' = runs_of s
  /\ Tables.sequence (MonitoringDatabase.tables (Sys.db s')) =
     Tables.sequence (MonitoringDatabase.tables (Sys.db s)).


(** The status that goes with the result of a run. *)
Definition status_of (result : RunResult.t) : string :=
  match result with
  | RunResult.Success _ _ _ _ => "completed"
  | RunResult.Failure _ => "failed"
  end.


(** Whether the start-up succeeds: the database file opens and one of
    the three logins is accepted. *)
Definition ready {S : Type} (boot : Agent.Boot S) (service : S) : bool :=
  match Agent.openDatabase boot with
  | Some _ => false
  | None =>
      match fst (Retry.retry (Agent.login boot) 3 1000 service) with
      | Ok _ => true
      | Throw _ => false
      end
  end.

(** * Sample inputs *)

Module Sample.

(** A login that is refused at every attempt; its state counts the calls. *)
Definition always_failing (calls : nat) : outcome unit * nat :=
  (Throw (mkError "Error" "INVALID_LOGIN"), Datatypes.S calls).

(** A login that is refused twice and accepted the third time. *)
Definition accepted_at_third (calls : nat) : outcome unit * nat :=
  (if (calls <? 2)%nat then Throw (mkError "Error" "INVALID_LOGIN") else Ok tt,
   Datatypes.S calls).

(** The thresholds of the README: 70 percent for the governor limits,
    complexity 15, 1000 lines, 75 percent coverage; ten errors. *)
Definition config : Config.t :=
  {| Config.monitoring :=
       {| Config.Monitoring.enabled :=
            {| Config.Enabled.debugLogs := true;
               Config.Enabled.governorLimits := true;
               Config.Enabled.codeQuality := true |};
          Config.Monitoring.intervals := {| Config.Intervals.debugLogHours := 24 |} |};
     Config.thresholds :=
       {| Config.Thresholds.errorRate := {| Config.ErrorRate.absoluteCount := 10 |};
          Config.Thresholds.governorLimits :=
            {| Config.GovernorLimits.soqlQueries := 70;
               Config.GovernorLimits.dmlStatements := 70;
               Config.GovernorLimits.cpuTime := 70 |};
          Config.Thresholds.codeQuality :=
            {| Config.CodeQuality.cyclomaticComplexity := 15;
               Config.CodeQuality.classLength := 1000;
               Config.CodeQuality.minTestCoverage := 75 |} |};
     Config.notifications :=
       {| Config.Notifications.email_enabled := false;
          Config.Notifications.email_onAnomalyOnly := true;
          Config.Notifications.reports_generateHtml := true |} |}.

(** The same file without [monitoring.intervals.debugLogHours]: the
    option reads as [undefined], and the arithmetic on it gives [NaN]. *)
Definition config_without_window : Config.t :=
  {| Config.monitoring :=
       {| Config.Monitoring.enabled := Config.Monitoring.enabled (Config.monitoring config);
          Config.Monitoring.intervals := {| Config.Intervals.debugLogHours := nan |} |};
     Config.thresholds := Config.thresholds config;
     Config.notifications := Config.notifications config |}.



Definition detector : AnomalyDetector.t unit :=
  {| AnomalyDetector.db := tt; AnomalyDetector.config := config |}.

(** A record of class [InvoiceBatch] with the limits that
    [extractLimitData] writes, given its CPU time and heap use. *)
Definition usage (cpuTimeUsed heapSizeUsed : float) : LimitUsageRecord.t :=
  {| LimitUsageRecord.timestamp := Some "2024-05-01T10:00:00.000+0000";
     LimitUsageRecord.className := "InvoiceBatch";
     LimitUsageRecord.methodName := "execute";
     LimitUsageRecord.soqlQueriesUsed := 12;
     LimitUsageRecord.soqlQueriesLimit := 100;
     LimitUsageRecord.dmlStatementsUsed := 30;
     LimitUsageRecord.dmlStatementsLimit := 150;
     LimitUsageRecord.cpuTimeUsed := cpuTimeUsed;
     LimitUsageRecord.cpuTimeLimit := 10000;
     LimitUsageRecord.heapSizeUsed := heapSizeUsed;
     LimitUsageRecord.heapSizeLimit := 6000000 |}.

(** An org with a failing log and an active class.  Queries are
    answered in the order a run sends them: the event log files, the
    failed Apex logs, the recent Apex logs, the active classes, the
    symbol table of the class. *)
Definition failedLog : SObject.t :=
  {| SObject.Id := Some "07L5e00000AbCdE";
     SObject.StartTime := Some "2024-05-01T10:00:00.000+0000";
     SObject.Status := Some "Assertion Failed";
     SObject.Operation := Some "/apex/InvoiceBatch";
     SObject.Location := Some "InvoiceBatch";
     SObject.DurationMilliseconds := Some 8996%float;
     SObject.Name := None;
     SObject.LengthWithoutComments := None;
     SObject.ApiVersion := None;
     SObject.SymbolTable := None |}.

Definition activeClass : SObject.t :=
  {| SObject.Id := Some "01p5e00000XyZwV";
     SObject.StartTime := None;
     SObject.Status := Some "Active";
     SObject.Operation := None;
     SObject.Location := None;
     SObject.DurationMilliseconds := None;
     SObject.Name := Some "InvoiceBatch";
     SObject.LengthWithoutComments := Some 1200%float;
     SObject.ApiVersion := Some 58%float;
     SObject.SymbolTable :=
       Some {| SymbolTable.methods := Some [ {| SymbolTable.methodName := "execute" |} ] |} |}.

Definition answers (n : nat) : outcome QueryResult.t :=
  match n with
  | 3%nat | 4%nat =>
      Ok {| QueryResult.totalSize := 1; QueryResult.records := [activeClass] |}
  | _ => Ok {| QueryResult.totalSize := 1; QueryResult.records := [failedLog] |}
  end.

(** The clock starts at 2024-05-01T12:00:00Z and advances by a second
    at each reading; [Math.random()] returns one half; the store works. *)
Definition world : World.t :=
  {| World.query := answers;
     World.random := fun _ => 0.5%float;
     World.now := fun n => (1714564800000 + JS.of_nat n * 1000)%float;
     World.store := fun _ => None |}.

(** The same world with a disk that fills up once the run has started:
    every call of the store after the first one fails. *)
Definition disk_full : Error := mkError "SqliteError" "database or disk is full".

Definition world_with_full_disk : World.t :=
  {| World.query := answers;
     World.random := fun _ => 0.5%float;
     World.now := fun n => (1714564800000 + JS.of_nat n * 1000)%float;
     World.store := fun n => match n with O => None | _ => Some disk_full end |}.



Definition ext : Ext.t :=
  {| Ext.queries := 0; Ext.draws := 0; Ext.ticks := 0; Ext.log := []; Ext.reports := [] |}.

Definition emptyDb : MonitoringDatabase.t :=
  {| MonitoringDatabase.calls := 0;
     MonitoringDatabase.tables :=
       {| Tables.sequence := 0; Tables.monitoring_runs := [];
          Tables.debug_log_errors := []; Tables.governor_limits := [];
          Tables.anomalies := [] |} |}.

Definition start : Sys.t := {| Sys.ext := ext; Sys.db := emptyDb |}.

Definition connection : Connection :=
  {| instanceUrl := "https://example.my.salesforce.com" |}.

Definition authenticated : SalesforceAuth.t := {| SalesforceAuth.conn := Some connection |}.


(** A start-up in which everything works, with the login accepted at
    the third attempt; and the process before [main]. *)
Definition boot : Agent.Boot nat :=
  {| Agent.openDatabase := None;
     Agent.createTransport := Ok tt;
     Agent.login := accepted_at_third;
     Agent.fresh := connection;
     Agent.schedule := None |}.

Definition process : Agent.t nat :=
  {| Agent.sys := start;
     Agent.auth := {| SalesforceAuth.conn := None |};
     Agent.service := 0%nat;
     Agent.retries := [];
     Agent.databaseOpen := false;
     Agent.scheduled := false |}.

(** The configuration with the email option enabled, and a notifier
    that has not written anything yet. *)
Definition with_email : Config.t :=
  {| Config.monitoring := Config.monitoring config;
     Config.thresholds := Config.thresholds config;
     Config.notifications :=
       {| Config.Notifications.email_enabled := true;
          Config.Notifications.email_onAnomalyOnly := true;
          Config.Notifications.reports_generateHtml := true |} |}.

Definition outbox : Outbox.t :=
  {| Outbox.saves := 0; Outbox.sends := 0; Outbox.files := []; Outbox.mails := [];
     Outbox.log := [] |}.


(** Ten failed logs of the same kind. *)
Definition oneError : ErrorRecord.t :=
  {| ErrorRecord.timestamp := Some "2024-05-01T10:00:00.000+0000";
     ErrorRecord.logId := Some "07L5e00000AbCdE";
     ErrorRecord.errorType := "Assertion Failed";
     ErrorRecord.errorMessage := Some "/apex/InvoiceBatch";
     ErrorRecord.className := "InvoiceBatch";
     ErrorRecord.methodName := "";
     ErrorRecord.lineNumber := None |}.

Definition snapshot (n : nat) : DebugLogResults.t :=
  {| DebugLogResults.errors := repeat oneError n;
     DebugLogResults.summary := DebugLogMonitor.analyzeErrors (repeat oneError n) |}.

End Sample.

(** * Properties *)

Lemma attempts_throw {S T : Type} (fn : S -> outcome T * S)
    maxRetries delay remaining attempt lastError s log e s' :
  fn s = (Throw e, s') ->
  Retry.attempts fn maxRetries delay (Datatypes.S remaining) attempt lastError s log =
  if (attempt <? maxRetries)%nat then
    Retry.attempts fn maxRetries delay remaining (Datatypes.S attempt) (Some e) s'
      (log ++ [Retry.Invoke attempt;
               Retry.Warn attempt (delay * 2 ^ (Z.of_nat attempt - 1)) (message e);
               Retry.Sleep (delay * 2 ^ (Z.of_nat attempt - 1))])
  else
    Retry.attempts fn maxRetries delay remaining (Datatypes.S attempt) (Some e) s'
      (log ++ [Retry.Invoke attempt]).
Proof. intros H. simpl. rewrite H. reflexivity. Qed.

Lemma sleeps_app log log' : sleeps (log ++ log') = sleeps log ++ sleeps log'.
Proof. unfold sleeps. apply flat_map_app. Qed.

Lemma invocations_app log log' :
  invocations (log ++ log') = (invocations log + invocations log')%nat.
Proof. unfold invocations. rewrite List.filter_app, length_app. reflexivity. Qed.

Section RetryFacts.

Context {S T : Type}.
Variable fn : S -> outcome T * S.

(** An operation that throws whenever it is called is called
  [maxRetries] times, with a sleep of [delay * 2^(k-1)] after the
  failure of attempt [k], for each [k] below [maxRetries]. *)
Hypothesis always_fails : forall s, exists e s', fn s = (Throw e, s').



End RetryFacts.

(** A login that [retry] gave up on leaves the singleton as it was. *)
Lemma authenticate_failure_keeps_conn {S : Type} (login : S -> outcome unit * S)
    fresh this s e after :
  SalesforceAuth.authenticate login fresh this s = (Throw e, after) ->
  fst (fst after) = this.
Proof.
  unfold SalesforceAuth.authenticate.
  destruct (Retry.retry login 3 1000 s) as [[[]|error] [s' events]]; intros [= _ <-];
    reflexivity.
Qed.

(** C3: with [maxRetries = 3] and [delay = 1000], an operation that
    throws at each of its invocations is invoked exactly three times;
    the retry sleeps 1000 ms between the first and the second
    invocation and 2000 ms between the second and the third; and the
    error of the third invocation is the one that is thrown, as it is. *)
Theorem retry_three_failures {S T : Type} (fn : S -> outcome T * S)
    (s0 s1 s2 s3 : S) (e1 e2 e3 : Error) :
  fn s0 = (Throw e1, s1) ->
  fn s1 = (Throw e2, s2) ->
  fn s2 = (Throw e3, s3) ->
  Retry.retry fn 3 1000 s0 =
    (Throw e3,
     (s3,
      [Retry.Invoke 1;
       Retry.Warn 1 1000 (message e1); Retry.Sleep 1000;
       Retry.Invoke 2;
       Retry.Warn 2 2000 (message e2); Retry.Sleep 2000;
       Retry.Invoke 3;
       Retry.LogError 3 (message e3)])).
Proof.
  intros H0 H1 H2. unfold Retry.retry.
  rewrite (attempts_throw _ _ _ _ _ _ _ _ e1 s1 H0). cbn [Nat.ltb Nat.leb].
  rewrite (attempts_throw _ _ _ _ _ _ _ _ e2 s2 H1). cbn [Nat.ltb Nat.leb].
  rewrite (attempts_throw _ _ _ _ _ _ _ _ e3 s3 H2). reflexivity.
Qed.

Lemma retry_three_failures_witness :
  Retry.retry Sample.always_failing 3 1000 0%nat =
    (Throw (mkError "Error" "INVALID_LOGIN"),
     (3%nat,
      [Retry.Invoke 1;
       Retry.Warn 1 1000 "INVALID_LOGIN"; Retry.Sleep 1000;
       Retry.Invoke 2;
       Retry.Warn 2 2000 "INVALID_LOGIN"; Retry.Sleep 2000;
       Retry.Invoke 3;
       Retry.LogError 3 "INVALID_LOGIN"])).
Proof.
  exact (retry_three_failures Sample.always_failing 0%nat 1%nat 2%nat 3%nat
           _ _ _ eq_refl eq_refl eq_refl).
Defined.

(** ** Histograms *)





Lemma analyzeErrors_totalErrors errors :
  ErrorSummary.totalErrors (DebugLogMonitor.analyzeErrors errors) = length errors.
Proof.
  unfold DebugLogMonitor.analyzeErrors.
  destruct (fold_left DebugLogMonitor.count errors (∅, ∅)). reflexivity.
Qed.


(** ** The error rules of the detector *)

Section DetectorFacts.

Context {Database : Type}.
Variable this : AnomalyDetector.t Database.

Let absoluteCount : float :=
  Config.ErrorRate.absoluteCount
    (Config.Thresholds.errorRate (Config.thresholds (AnomalyDetector.config this))).

(** C5: [detectErrorAnomalies] reports a HIGH_ERROR_RATE anomaly exactly
    when the number of errors of the snapshot is [>=] the configured
    [absoluteCount], an equal count included; it then reports a
    single one, of severity HIGH, with the count, the threshold and
    the histogram by error type as details.  For a snapshot built by
    the monitor the number of errors is the [totalErrors] of its
    summary. *)
Theorem high_error_rate_iff_threshold_reached (errors : list ErrorRecord.t)
    (summary : ErrorSummary.t) :
  let anomalies :=
    AnomalyDetector.detectErrorAnomalies this
      {| DebugLogResults.errors := errors; DebugLogResults.summary := summary |} in
  let reached := JS.ge (JS.of_nat (length errors)) absoluteCount in
  ((exists a, In a anomalies /\ Anomaly.type a = HIGH_ERROR_RATE) <-> reached = true)
  /\ List.filter (fun a => bool_decide (Anomaly.type a = HIGH_ERROR_RATE)) anomalies =
       (if reached
        then [ {| Anomaly.type := HIGH_ERROR_RATE;
                  Anomaly.severity := HIGH;
                  Anomaly.description := ErrorsDetected (length errors);
                  Anomaly.details :=
                    ErrorRateDetails (length errors) absoluteCount
                      (ErrorSummary.errorTypes summary) |} ]
        else [])
  /\ ErrorSummary.totalErrors (DebugLogMonitor.analyzeErrors errors) = length errors.
Proof.
  unfold AnomalyDetector.detectErrorAnomalies. cbn zeta. simpl.
  fold absoluteCount.
  destruct (JS.ge (JS.of_nat (length errors)) absoluteCount) eqn:Hge;
    destruct (5 <? ErrorSummary.uniqueErrorTypes summary)%nat; simpl;
    (split; [ split | split ]);
    try discriminate; try reflexivity;
    try (intros _; eexists; split; [ left; reflexivity | reflexivity ]);
    try apply analyzeErrors_totalErrors;
    intros [a [Hin Hty]]; simpl in Hin;
    repeat (destruct Hin as [Hin|Hin]; [ subst a; discriminate Hty | ]);
    destruct Hin.
Qed.


End DetectorFacts.

(** ** The complexity placeholder *)

(** C9: [calculateComplexity] returns 0, without calling [Math.random]
    and so whatever it would return, when the symbol table is absent,
    when it has no [methods], and when [methods] is empty. *)
Theorem calculateComplexity_zero_without_methods (world : World.t)
    (symbolTable : option SymbolTable.t) (s : Ext.t) :
  (symbolTable = None
   \/ exists table, symbolTable = Some table
        /\ (SymbolTable.methods table = None \/ SymbolTable.methods table = Some [])) ->
  CodeQualityMonitor.calculateComplexity world symbolTable s = (Ok 0%float, s).
Proof.
  intros [-> | [table [-> [Hmethods | Hmethods]]]];
    unfold CodeQualityMonitor.calculateComplexity; try rewrite Hmethods; reflexivity.
Qed.

Lemma calculateComplexity_zero_without_methods_witness :
  CodeQualityMonitor.calculateComplexity Sample.world
    (Some {| SymbolTable.methods := Some [] |}) Sample.ext = (Ok 0%float, Sample.ext).
Proof.
  apply calculateComplexity_zero_without_methods.
  right. eexists. split; [ reflexivity | right; reflexivity ].
Defined.

(** ** The limit analysis *)

Section LimitFacts.

Variable thresholds : Config.GovernorLimits.t.





End LimitFacts.


(** ** The limit rule of the detector *)

Section LimitRule.

Context {Database : Type}.
Variable this : AnomalyDetector.t Database.

Let threshold : float :=
  Config.GovernorLimits.soqlQueries
    (Config.Thresholds.governorLimits (Config.thresholds (AnomalyDetector.config this))).


End LimitRule.

(** ** The run *)

Section RunFacts.

Variable world : World.t.
Variable config : Config.t.
Variable salesforceAuth : SalesforceAuth.t.
Variable debugLogMonitor : Connection -> M Ext.t DebugLogResults.t.
Variable governorLimitMonitor : Connection -> M Ext.t GovernorLimitResults.t.
Variable codeQualityMonitor : Connection -> M Ext.t CodeQualityResults.t.

Let run :=
  MonitoringOrchestrator.run_with world config salesforceAuth
    debugLogMonitor governorLimitMonitor codeQualityMonitor.

Lemma call_succeeds {A} (result : Tables.t -> A) (effect : Tables.t -> Tables.t)
    (this : MonitoringDatabase.t) :
  World.store world (MonitoringDatabase.calls this) = None ->
  MonitoringDatabase.call world result effect this =
    (Ok (result (MonitoringDatabase.tables this)),
     {| MonitoringDatabase.calls := Datatypes.S (MonitoringDatabase.calls this);
        MonitoringDatabase.tables := effect (MonitoringDatabase.tables this) |}).
Proof. intros Hok. unfold MonitoringDatabase.call. rewrite Hok. reflexivity. Qed.



Lemma catchBlock_with_run startTime runId error (s : Sys.t) :
  MonitoringOrchestrator.catchBlock world startTime (Some runId) error s =
  let duration := (World.now world (Ext.ticks (Sys.ext s)) - startTime)%float in
  let entry := LogError "Monitoring run failed" (message error) in
  if (runId =? 0)%N then
    (Ok (RunResult.Failure (message error)),
     {| Sys.ext := Ext.logged entry (Ext.ticked (Sys.ext s)); Sys.db := Sys.db s |})
  else
    match MonitoringDatabase.endRun world runId "failed" duration (Sys.db s) with
    | (Ok _, db') =>
        (Ok (RunResult.Failure (message error)),
         {| Sys.ext := Ext.logged entry (Ext.ticked (Sys.ext s)); Sys.db := db' |})
    | (Throw e, db') =>
        (Throw e, {| Sys.ext := Ext.ticked (Sys.ext s); Sys.db := db' |})
    end.
Proof.
  unfold MonitoringOrchestrator.catchBlock, bind, on_ext, on_db, Date_now, logger, ret.
  cbn [Sys.ext Sys.db]. destruct (runId =? 0)%N; [ reflexivity | ].
  destruct (MonitoringDatabase.endRun _ _ _ _ _) as [[[]|e] db']; reflexivity.
Qed.

Lemma catchBlock_without_run startTime error (s : Sys.t) :
  MonitoringOrchestrator.catchBlock world startTime None error s =
  (Ok (RunResult.Failure (message error)),
   {| Sys.ext :=
        Ext.logged (LogError "Monitoring run failed" (message error))
          (Ext.ticked (Sys.ext s));
      Sys.db := Sys.db s |}).
Proof. reflexivity. Qed.

(** X1: when [run] returns and when it throws.  If [startRun] throws, it
    returns the failure object with the message of that error.  If
    the rest of the [try] block returns, it returns the success
    object built there.  If the rest of the [try] block throws, it
    returns the failure object with the message of that error,
    unless the [endRun] of the [catch] block throws in its turn: then
    [run] throws that second error to its caller. *)
Theorem run_throws_only_from_closing_update (s : Sys.t) :
  let startTime := World.now world (Ext.ticks (Sys.ext s)) in
  let s0 := {| Sys.ext := Ext.ticked (Sys.ext s); Sys.db := Sys.db s |} in
  match on_db (MonitoringDatabase.startRun world) s0 with
  | (Throw error, _) =>
      exists s', run s = (Ok (RunResult.Failure (message error)), s')
  | (Ok runId, s1) =>
      match MonitoringOrchestrator.tryBlock world config salesforceAuth
              debugLogMonitor governorLimitMonitor codeQualityMonitor
              startTime runId s1 with
      | (Ok result, s2) =>
          run s = (Ok result, s2)
          /\ exists duration anomalies results,
               result = RunResult.Success runId duration anomalies results
      | (Throw error, s2) =>
          (exists s', run s = (Ok (RunResult.Failure (message error)), s'))
          \/ (exists e s' duration d,
                 run s = (Throw e, s')
                 /\ MonitoringDatabase.endRun world runId "failed" duration d
                    = (Throw e, Sys.db s'))
      end
  end.
Proof.
  cbn zeta.
  assert (Hrun : run s =
            match on_db (MonitoringDatabase.startRun world)
                    {| Sys.ext := Ext.ticked (Sys.ext s); Sys.db := Sys.db s |} with
            | (Throw error, s') =>
                MonitoringOrchestrator.catchBlock world
                  (World.now world (Ext.ticks (Sys.ext s))) None error s'
            | (Ok runId, s') =>
                try_catch
                  (MonitoringOrchestrator.tryBlock world config salesforceAuth
                     debugLogMonitor governorLimitMonitor codeQualityMonitor
                     (World.now world (Ext.ticks (Sys.ext s))) runId)
                  (MonitoringOrchestrator.catchBlock world
                     (World.now world (Ext.ticks (Sys.ext s))) (Some runId)) s'
            end) by reflexivity.
  rewrite Hrun. clear Hrun.
  destruct (on_db (MonitoringDatabase.startRun world) _) as [[runId|error] s1].
  - unfold try_catch.
    destruct (MonitoringOrchestrator.tryBlock _ _ _ _ _ _ _ runId s1)
      as [[result|error] s2] eqn:Htry.
    + split; [ reflexivity | ].
      revert Htry. unfold MonitoringOrchestrator.tryBlock, bind.
      repeat match goal with
             | |- context [match ?m ?st with pair _ _ => _ end] =>
                 destruct (m st) as [[?|?] ?]
             end;
        try discriminate;
        intros [= <- <-]; eauto.
    + rewrite catchBlock_with_run. cbn zeta.
      destruct (runId =? 0)%N.
      * left. eexists. reflexivity.
      * destruct (MonitoringDatabase.endRun world runId "failed" _ _)
          as [[[]|e] d'] eqn:Hend.
        -- left. eexists. reflexivity.
        -- right. do 4 eexists. split; [ reflexivity | exact Hend ].
  - rewrite catchBlock_without_run. eexists. reflexivity.
Qed.

(** *** A monitor that throws *)

Lemma bind_ok {St A B} (m : M St A) (k : A -> M St B) s a s' :
  m s = (Ok a, s') -> bind m k s = k a s'.
Proof. intros H. unfold bind. rewrite H. reflexivity. Qed.

Lemma bind_throw {St A B} (m : M St A) (k : A -> M St B) s e s' :
  m s = (Throw e, s') -> bind m k s = (Throw e, s').
Proof. intros H. unfold bind. rewrite H. reflexivity. Qed.

Lemma with_errors_nil runId tables : Tables.with_errors runId [] tables = tables.
Proof. destruct tables. unfold Tables.with_errors. simpl. rewrite app_nil_r. reflexivity. Qed.

Lemma with_limits_nil runId tables : Tables.with_limits runId [] tables = tables.
Proof. destruct tables. unfold Tables.with_limits. simpl. rewrite app_nil_r. reflexivity. Qed.

Hypothesis healthy : forall k, World.store world k = None.

Let enabled := Config.Monitoring.enabled (Config.monitoring config).

Lemma runDebugLogs_throws runId conn (s : Sys.t) e ext1 :
  Config.Enabled.debugLogs enabled = true ->
  debugLogMonitor conn (Sys.ext s) = (Throw e, ext1) ->
  MonitoringOrchestrator.runDebugLogs world config debugLogMonitor runId conn s =
    (Throw e, {| Sys.ext := ext1; Sys.db := Sys.db s |}).
Proof.
  intros Hon Hmonitor. unfold MonitoringOrchestrator.runDebugLogs.
  fold enabled. rewrite Hon. apply bind_throw. unfold on_ext. rewrite Hmonitor. reflexivity.
Qed.

Lemma runDebugLogs_returns runId conn (s : Sys.t) debugLogs ext1 :
  Config.Enabled.debugLogs enabled = true ->
  debugLogMonitor conn (Sys.ext s) = (Ok debugLogs, ext1) ->
  exists calls,
    MonitoringOrchestrator.runDebugLogs world config debugLogMonitor runId conn s =
      (Ok (Some debugLogs),
       {| Sys.ext := ext1;
          Sys.db :=
            {| MonitoringDatabase.calls := calls;
               MonitoringDatabase.tables :=
                 Tables.with_errors runId (DebugLogResults.errors debugLogs)
                   (MonitoringDatabase.tables (Sys.db s)) |} |}).
Proof.
  intros Hon Hmonitor. unfold MonitoringOrchestrator.runDebugLogs.
  fold enabled. rewrite Hon.
  erewrite bind_ok by (unfold on_ext; rewrite Hmonitor; reflexivity).
  destruct (DebugLogResults.errors debugLogs) as [|error errors]; simpl.
  - exists (MonitoringDatabase.calls (Sys.db s)).
    rewrite with_errors_nil. destruct s as [ext0 [calls tables]]. reflexivity.
  - eexists. unfold bind, on_db, MonitoringDatabase.insertDebugLogErrors. simpl.
    rewrite call_succeeds by apply healthy. reflexivity.
Qed.

Lemma runGovernorLimits_throws runId conn (s : Sys.t) e ext1 :
  Config.Enabled.governorLimits enabled = true ->
  governorLimitMonitor conn (Sys.ext s) = (Throw e, ext1) ->
  MonitoringOrchestrator.runGovernorLimits world config governorLimitMonitor runId conn s =
    (Throw e, {| Sys.ext := ext1; Sys.db := Sys.db s |}).
Proof.
  intros Hon Hmonitor. unfold MonitoringOrchestrator.runGovernorLimits.
  fold enabled. rewrite Hon. apply bind_throw. unfold on_ext. rewrite Hmonitor. reflexivity.
Qed.

Lemma runGovernorLimits_returns runId conn (s : Sys.t) governorLimits ext1 :
  Config.Enabled.governorLimits enabled = true ->
  governorLimitMonitor conn (Sys.ext s) = (Ok governorLimits, ext1) ->
  exists calls,
    MonitoringOrchestrator.runGovernorLimits world config governorLimitMonitor runId conn s =
      (Ok (Some governorLimits),
       {| Sys.ext := ext1;
          Sys.db :=
            {| MonitoringDatabase.calls := calls;
               MonitoringDatabase.tables :=
                 Tables.with_limits runId (GovernorLimitResults.limitData governorLimits)
                   (MonitoringDatabase.tables (Sys.db s)) |} |}).
Proof.
  intros Hon Hmonitor. unfold MonitoringOrchestrator.runGovernorLimits.
  fold enabled. rewrite Hon.
  erewrite bind_ok by (unfold on_ext; rewrite Hmonitor; reflexivity).
  destruct (GovernorLimitResults.limitData governorLimits) as [|limit limits]; simpl.
  - exists (MonitoringDatabase.calls (Sys.db s)).
    rewrite with_limits_nil. destruct s as [ext0 [calls tables]]. reflexivity.
  - eexists. unfold bind, on_db, MonitoringDatabase.insertGovernorLimits. simpl.
    rewrite call_succeeds by apply healthy. reflexivity.
Qed.

Lemma runCodeQuality_throws conn (s : Sys.t) e ext1 :
  Config.Enabled.codeQuality enabled = true ->
  codeQualityMonitor conn (Sys.ext s) = (Throw e, ext1) ->
  MonitoringOrchestrator.runCodeQuality config codeQualityMonitor conn s =
    (Throw e, {| Sys.ext := ext1; Sys.db := Sys.db s |}).
Proof.
  intros Hon Hmonitor. unfold MonitoringOrchestrator.runCodeQuality.
  fold enabled. rewrite Hon. apply bind_throw. unfold on_ext. rewrite Hmonitor. reflexivity.
Qed.

(** Once the [try] block has thrown, a working store closes the run
    as failed and the caller gets the message. *)
Lemma run_after_throw (s : Sys.t) e ext1 calls tables :
  MonitoringOrchestrator.tryBlock world config salesforceAuth
    debugLogMonitor governorLimitMonitor codeQualityMonitor
    (World.now world (Ext.ticks (Sys.ext s)))
    (Tables.sequence (MonitoringDatabase.tables (Sys.db s)) + 1)%N
    {| Sys.ext := Ext.ticked (Sys.ext s);
       Sys.db :=
         {| MonitoringDatabase.calls := Datatypes.S (MonitoringDatabase.calls (Sys.db s));
            MonitoringDatabase.tables :=
              Tables.started (MonitoringDatabase.tables (Sys.db s)) |} |}
  = (Throw e,
     {| Sys.ext := ext1;
        Sys.db := {| MonitoringDatabase.calls := calls;
                     MonitoringDatabase.tables := tables |} |}) ->
  run s =
    (Ok (RunResult.Failure (message e)),
     {| Sys.ext := Ext.logged (LogError "Monitoring run failed" (message e)) (Ext.ticked ext1);
        Sys.db :=
          {| MonitoringDatabase.calls := Datatypes.S calls;
             MonitoringDatabase.tables :=
               Tables.ended (Tables.sequence (MonitoringDatabase.tables (Sys.db s)) + 1)%N
                 "failed"
                 (World.now world (Ext.ticks ext1)
                  - World.now world (Ext.ticks (Sys.ext s)))%float
                 tables |} |}).
Proof.
  intros Htry.
  unfold run, MonitoringOrchestrator.run_with.
  unfold bind at 1. unfold on_ext at 1, Date_now at 1.
  unfold on_db at 1, MonitoringDatabase.startRun. cbn [Sys.db Sys.ext].
  rewrite call_succeeds by apply healthy.
  unfold try_catch. rewrite Htry.
  rewrite catchBlock_with_run. cbn zeta.
  replace (Tables.sequence (MonitoringDatabase.tables (Sys.db s)) + 1 =? 0)%N with false
    by (symmetry; apply N.eqb_neq; lia).
  unfold MonitoringDatabase.endRun. cbn [Sys.db Sys.ext].
  rewrite call_succeeds by apply healthy. reflexivity.
Qed.

(** C2, as amended: with the three monitors enabled, a connection
    and a working store, a monitor whose [monitor()] throws makes
    the run fail.  The run returns the failure object with the
    message of that error; its outside effects end with the throwing
    monitor, one more clock reading and the error log entry, so that
    no later monitor is called and nothing is reported; the store
    holds the records of the monitors that returned before, no new
    anomaly, and the row of the run closed as [failed]. *)
Theorem run_fails_when_a_monitor_throws (s : Sys.t) (conn : Connection) (e : Error) :
  SalesforceAuth.conn salesforceAuth = Some conn ->
  Config.Enabled.debugLogs enabled = true ->
  Config.Enabled.governorLimits enabled = true ->
  Config.Enabled.codeQuality enabled = true ->
  let runId := (Tables.sequence (MonitoringDatabase.tables (Sys.db s)) + 1)%N in
  let failed (last : Ext.t) (errors : list ErrorRecord.t)
             (limits : list LimitUsageRecord.t) :=
    exists s',
      run s = (Ok (RunResult.Failure (message e)), s')
      /\ Sys.ext s' =
           Ext.logged (LogError "Monitoring run failed" (message e)) (Ext.ticked last)
      /\ MonitoringDatabase.tables (Sys.db s') =
           Tables.ended runId "failed"
             (World.now world (Ext.ticks last) - World.now world (Ext.ticks (Sys.ext s)))%float
             (Tables.with_limits runId limits
                (Tables.with_errors runId errors
                   (Tables.started (MonitoringDatabase.tables (Sys.db s)))))
      /\ Tables.anomalies (MonitoringDatabase.tables (Sys.db s')) =
           Tables.anomalies (MonitoringDatabase.tables (Sys.db s)) in
  (forall ext1,
      debugLogMonitor conn (Ext.ticked (Sys.ext s)) = (Throw e, ext1) ->
      failed ext1 [] [])
  /\ (forall debugLogs ext1 ext2,
        debugLogMonitor conn (Ext.ticked (Sys.ext s)) = (Ok debugLogs, ext1) ->
        governorLimitMonitor conn ext1 = (Throw e, ext2) ->
        failed ext2 (DebugLogResults.errors debugLogs) [])
  /\ (forall debugLogs governorLimits ext1 ext2 ext3,
        debugLogMonitor conn (Ext.ticked (Sys.ext s)) = (Ok debugLogs, ext1) ->
        governorLimitMonitor conn ext1 = (Ok governorLimits, ext2) ->
        codeQualityMonitor conn ext2 = (Throw e, ext3) ->
        failed ext3 (DebugLogResults.errors debugLogs)
          (GovernorLimitResults.limitData governorLimits)).
Proof.
  intros Hconn Hdebug Hlimits Hquality. cbn zeta.
  assert (Hget : forall s1 : Sys.t,
             lift (SalesforceAuth.getConnection salesforceAuth) s1 = (Ok conn, s1))
    by (intros s1; unfold lift, SalesforceAuth.getConnection; rewrite Hconn; reflexivity).
  pose (s1 := {| Sys.ext := Ext.ticked (Sys.ext s);
                 Sys.db :=
                   {| MonitoringDatabase.calls :=
                        Datatypes.S (MonitoringDatabase.calls (Sys.db s));
                      MonitoringDatabase.tables :=
                        Tables.started (MonitoringDatabase.tables (Sys.db s)) |} |}).
  split; [ | split ].
  - intros ext1 H1.
    eexists. split; [ | split; [ | split ] ].
    + eapply run_after_throw.
      unfold MonitoringOrchestrator.tryBlock.
      erewrite bind_ok by apply Hget.
      fold s1.
      rewrite (bind_throw _ _ _ _ _ (runDebugLogs_throws _ conn s1 e ext1 Hdebug H1)).
      reflexivity.
    + reflexivity.
    + cbn [Sys.db MonitoringDatabase.tables].
      rewrite with_limits_nil, with_errors_nil. reflexivity.
    + reflexivity.
  - intros debugLogs ext1 ext2 H1 H2.
    destruct (runDebugLogs_returns
                (Tables.sequence (MonitoringDatabase.tables (Sys.db s)) + 1)%N
                conn s1 debugLogs ext1 Hdebug H1) as [calls1 Hrun1].
    eexists. split; [ | split; [ | split ] ].
    + eapply run_after_throw.
      unfold MonitoringOrchestrator.tryBlock.
      erewrite bind_ok by apply Hget.
      fold s1. erewrite bind_ok by exact Hrun1.
      match type of Hrun1 with _ = (_, ?st) =>
        rewrite (bind_throw _ _ _ _ _
                   (runGovernorLimits_throws _ conn st e ext2 Hlimits H2))
      end.
      reflexivity.
    + reflexivity.
    + cbn [Sys.db MonitoringDatabase.tables].
      rewrite with_limits_nil. reflexivity.
    + reflexivity.
  - intros debugLogs governorLimits ext1 ext2 ext3 H1 H2 H3.
    destruct (runDebugLogs_returns
                (Tables.sequence (MonitoringDatabase.tables (Sys.db s)) + 1)%N
                conn s1 debugLogs ext1 Hdebug H1) as [calls1 Hrun1].
    match type of Hrun1 with _ = (_, ?st) => pose (s2 := st) end.
    destruct (runGovernorLimits_returns
                (Tables.sequence (MonitoringDatabase.tables (Sys.db s)) + 1)%N
                conn s2 governorLimits ext2 Hlimits H2) as [calls2 Hrun2].
    eexists. split; [ | split; [ | split ] ].
    + eapply run_after_throw.
      unfold MonitoringOrchestrator.tryBlock.
      erewrite bind_ok by apply Hget.
      fold s1. erewrite bind_ok by exact Hrun1.
      fold s2. erewrite bind_ok by exact Hrun2.
      match type of Hrun2 with _ = (_, ?st) =>
        rewrite (bind_throw _ _ _ _ _ (runCodeQuality_throws conn st e ext3 Hquality H3))
      end.
      reflexivity.
    + reflexivity.
    + reflexivity.
    + reflexivity.
Qed.

End RunFacts.

(** ** The properties on the sample inputs *)

(** With ten errors and the threshold at ten the rule fires; with nine
    it does not. *)
Example high_error_rate_at_threshold :
  map Anomaly.type (AnomalyDetector.detectErrorAnomalies Sample.detector (Sample.snapshot 10))
    = [HIGH_ERROR_RATE]
  /\ AnomalyDetector.detectErrorAnomalies Sample.detector (Sample.snapshot 9) = [].
Proof. split; vm_compute; reflexivity. Qed.






(** C2 fails as stated: without a usable lookback window the debug log
    monitor throws from [monitor()], while the two other monitors would
    return; the run calls neither of them, stores no record and no
    anomaly, and is closed as failed. *)
Lemma throwing_monitor_fails_the_run :
  (exists ext1,
      DebugLogMonitor.monitor Sample.world Sample.config_without_window
        (Ext.ticked Sample.ext)
      = (Throw (mkError "RangeError" "Invalid time value"), ext1))
  /\ (exists limits ext1,
         GovernorLimitMonitor.monitor Sample.world Sample.config_without_window Sample.ext
         = (Ok limits, ext1))
  /\ (exists quality ext1,
         CodeQualityMonitor.monitor Sample.world Sample.config_without_window Sample.ext
         = (Ok quality, ext1))
  /\ exists s',
       MonitoringOrchestrator.run Sample.world Sample.config_without_window
         Sample.authenticated Sample.start
       = (Ok (RunResult.Failure "Invalid time value"), s')
       /\ Ext.queries (Sys.ext s') = 0%nat
       /\ Ext.reports (Sys.ext s') = []
       /\ MonitoringDatabase.tables (Sys.db s') =
            {| Tables.sequence := 1;
               Tables.monitoring_runs := [closed 1 "failed" 2000];
               Tables.debug_log_errors := [];
               Tables.governor_limits := [];
               Tables.anomalies := [] |}.
Proof.
  repeat split.
  - eexists. vm_compute. reflexivity.
  - do 2 eexists. vm_compute. reflexivity.
  - do 2 eexists. vm_compute. reflexivity.
  - eexists. split; [ vm_compute; reflexivity | ].
    repeat split.
Qed.

Lemma run_fails_when_a_monitor_throws_witness :
  exists s',
    MonitoringOrchestrator.run Sample.world Sample.config_without_window
      Sample.authenticated Sample.start
    = (Ok (RunResult.Failure "Invalid time value"), s')
    /\ Sys.ext s' =
         Ext.logged (LogError "Monitoring run failed" "Invalid time value")
           (Ext.ticked
              (Ext.logged (LogError "Debug log monitoring failed" "Invalid time value")
                 (Ext.ticked (Ext.ticked Sample.ext))))
    /\ MonitoringDatabase.tables (Sys.db s') =
         Tables.ended 1 "failed" (World.now Sample.world 2 - World.now Sample.world 0)%float
           (Tables.with_limits 1 []
              (Tables.with_errors 1 []
                 (Tables.started (MonitoringDatabase.tables Sample.emptyDb))))
    /\ Tables.anomalies (MonitoringDatabase.tables (Sys.db s')) = [].
Proof.
  exact (proj1
           (run_fails_when_a_monitor_throws Sample.world Sample.config_without_window
              Sample.authenticated
              (fun _ => DebugLogMonitor.monitor Sample.world Sample.config_without_window)
              (fun _ => GovernorLimitMonitor.monitor Sample.world Sample.config_without_window)
              (fun _ => CodeQualityMonitor.monitor Sample.world Sample.config_without_window)
              (fun _ => eq_refl) Sample.start Sample.connection
              (mkError "RangeError" "Invalid time value")
              eq_refl eq_refl eq_refl eq_refl)
           _ eq_refl).
Defined.

(** C8 does not hold of the code: when the disk fills up after the run
    has started, the insert of the errors throws, the [endRun] of the
    [catch] block throws as well, and [run] throws to its caller
    instead of returning a failure object; the row of the run is left
    as [running]. *)
Lemma run_throws_when_the_store_keeps_failing :
  exists s',
    MonitoringOrchestrator.run Sample.world_with_full_disk Sample.config
      Sample.authenticated Sample.start
    = (Throw Sample.disk_full, s')
    /\ Tables.monitoring_runs (MonitoringDatabase.tables (Sys.db s')) =
         [ {| RunRow.id := 1; RunRow.status := "running"; RunRow.duration_ms := None |} ].
Proof. eexists. split; [ vm_compute; reflexivity | reflexivity ]. Qed.
(** * Further properties *)

(** ** The retry helper, for any operation *)

Lemma after_failures_snoc {S T : Type} (fn : S -> outcome T * S) n :
  forall s sn e s',
    after_failures fn n s = Some sn ->
    fn sn = (Throw e, s') ->
    after_failures fn (Datatypes.S n) s = Some s'.
Proof.
  induction n as [|n IH]; intros s sn e s' Hn Hfn.
  - injection Hn as <-. simpl. rewrite Hfn. reflexivity.
  - change (after_failures fn (Datatypes.S n) s) with
      (match fn s with
       | (Throw _, s1) => after_failures fn n s1
       | (Ok _, _) => None
       end) in Hn.
    change (after_failures fn (Datatypes.S (Datatypes.S n)) s) with
      (match fn s with
       | (Throw _, s1) => after_failures fn (Datatypes.S n) s1
       | (Ok _, _) => None
       end).
    destruct (fn s) as [[v|e0] s1]; [ discriminate Hn | ].
    exact (IH s1 sn e s' Hn Hfn).
Qed.


Lemma seq_snoc start len : seq start (Datatypes.S len) = seq start len ++ [(start + len)%nat].
Proof. rewrite <- Nat.add_1_r, seq_app. reflexivity. Qed.

Section RetryOfAnyOperation.

Context {S T : Type}.
Variable fn : S -> outcome T * S.
Variable maxRetries : nat.
Variable delay : Z.
Variable start : S.

(** What holds of the result of the loop, in terms of the run of
    invocations that led to it. *)
Let outcome_of (result : outcome T * (S * list Retry.event)) : Prop :=
  let log := snd (snd result) in
  (1 <= invocations log <= maxRetries)%nat
  /\ sleeps log = map (backoff delay) (seq 1 (invocations log - 1))
  /\ exists before,
       after_failures fn (invocations log - 1) start = Some before
       /\ match fst result with
          | Ok v => fn before = (Ok v, fst (snd result)) /\ gave_up log = false
          | Throw e =>
              fn before = (Throw e, fst (snd result))
              /\ invocations log = maxRetries
              /\ gave_up log = true
          end.

Lemma gave_up_app log log' : gave_up (log ++ log') = gave_up log || gave_up log'.
Proof. unfold gave_up. apply existsb_app. Qed.

Lemma attempts_of_any_operation remaining :
  forall attempt lastError s log,
    (attempt + remaining = maxRetries + 1)%nat ->
    (1 <= attempt)%nat ->
    (1 <= remaining)%nat ->
    invocations log = (attempt - 1)%nat ->
    sleeps log = map (backoff delay) (seq 1 (attempt - 1)) ->
    gave_up log = false ->
    after_failures fn (attempt - 1) start = Some s ->
    outcome_of (Retry.attempts fn maxRetries delay remaining attempt lastError s log).
Proof.
  induction remaining as [|remaining IH];
    intros attempt lastError s log Hsum Hattempt Hremaining Hcalls Hsleeps Hgave Hbefore;
    [ lia | ].
  destruct (fn s) as [[v|e] s'] eqn:Hfn.
  - (* the invocation returns *)
    simpl. rewrite Hfn. unfold outcome_of. cbn [fst snd].
    rewrite invocations_app, sleeps_app, gave_up_app, Hcalls, Hsleeps, Hgave.
    cbn [invocations sleeps flat_map List.filter length gave_up existsb app].
    replace (attempt - 1 + 1 - 1)%nat with (attempt - 1)%nat by lia.
    rewrite app_nil_r.
    split; [ lia | ]. split; [ reflexivity | ].
    exists s. split; [ exact Hbefore | split; [ exact Hfn | reflexivity ] ].
  - rewrite (attempts_throw _ _ _ _ _ _ _ _ e s' Hfn).
    destruct (attempt <? maxRetries)%nat eqn:Hlt.
    + apply Nat.ltb_lt in Hlt.
      apply IH; try lia.
      * rewrite invocations_app, Hcalls. cbn. lia.
      * rewrite sleeps_app, Hsleeps. cbn [sleeps flat_map app].
        replace (Datatypes.S attempt - 1)%nat with (Datatypes.S (attempt - 1)) by lia.
        rewrite seq_snoc, map_app. cbn [map].
        replace (1 + (attempt - 1))%nat with attempt by lia. reflexivity.
      * rewrite gave_up_app, Hgave. reflexivity.
      * replace (Datatypes.S attempt - 1)%nat with (Datatypes.S (attempt - 1)) by lia.
        exact (after_failures_snoc fn _ _ _ _ _ Hbefore Hfn).
    + apply Nat.ltb_ge in Hlt.
      assert (remaining = 0%nat) by lia. subst remaining.
      assert (attempt = maxRetries) by lia. subst attempt.
      simpl. unfold outcome_of. cbn [fst snd].
      rewrite !invocations_app, !sleeps_app, !gave_up_app, Hcalls, Hsleeps, Hgave.
      cbn [invocations sleeps flat_map List.filter length gave_up existsb app].
      replace (maxRetries - 1 + 1 + 0 - 1)%nat with (maxRetries - 1)%nat by lia.
      rewrite !app_nil_r.
      split; [ lia | ]. split; [ reflexivity | ].
      exists s. split; [ exact Hbefore | ].
      split; [ exact Hfn | split; [ lia | reflexivity ] ].
Qed.

Lemma retry_of_any_operation :
  (1 <= maxRetries)%nat ->
  outcome_of (Retry.retry fn maxRetries delay start).
Proof.
  intros Hmax. unfold Retry.retry.
  apply attempts_of_any_operation; try reflexivity; lia.
Qed.

End RetryOfAnyOperation.




(** ** [authenticate] *)

(** X5: [authenticate] tries the login at most three times, sleeping
    1000 ms and then 2000 ms between the attempts.  When a login is
    accepted it returns the new connection, which [getConnection]
    returns from then on, and [isAuthenticated] holds; when the third
    login is refused as well it throws the error of that third login
    and leaves the connection it had, or the lack of one, as it was. *)
Theorem authenticate_connects_iff_login_succeeds {S : Type}
    (login : S -> outcome unit * S) (fresh : Connection) (this : SalesforceAuth.t)
    (s : S) :
  let result := SalesforceAuth.authenticate login fresh this s in
  let after := fst (fst (snd result)) in
  let events := snd (snd result) in
  (1 <= invocations events <= 3)%nat
  /\ sleeps events = firstn (invocations events - 1) [1000; 2000]
  /\ match fst result with
     | Ok conn =>
         conn = fresh
         /\ SalesforceAuth.getConnection after = Ok fresh
         /\ SalesforceAuth.isAuthenticated after = true
         /\ gave_up events = false
     | Throw e =>
         after = this
         /\ invocations events = 3%nat
         /\ exists before,
              after_failures login 2 s = Some before
              /\ login before = (Throw e, snd (fst (snd result)))
     end.
Proof.
  cbn zeta. unfold SalesforceAuth.authenticate.
  destruct (retry_of_any_operation login 3 1000 s ltac:(lia))
    as (Hcalls & Hsleeps & before & Hbefore & Hlast).
  destruct (Retry.retry login 3 1000 s) as [[[]|e] [s' events]]; cbn [fst snd] in *.
  - split; [ exact Hcalls | ]. split.
    + rewrite Hsleeps.
      destruct (invocations events) as [|[|[|[|n]]]]; try lia; reflexivity.
    + destruct Hlast as [_ Hgave]. repeat split. exact Hgave.
  - destruct Hlast as (Hthrows & Hall & _).
    split; [ exact Hcalls | ]. split.
    + rewrite Hsleeps, Hall. reflexivity.
    + split; [ reflexivity | ]. split; [ exact Hall | ].
      exists before. rewrite Hall in Hbefore. split; [ exact Hbefore | exact Hthrows ].
Qed.

(** ** The histograms of [analyzeErrors], key by key *)






(** ** The most common error *)











(** ** The debug log monitor *)

Lemma sinceDateStr_throws now hoursAgo e :
  sinceDateStr now hoursAgo = Throw e -> e = mkError "RangeError" "Invalid time value".
Proof.
  unfold sinceDateStr, JS.toISOString.
  destruct (is_nan _); [ intros [= <-]; reflexivity | discriminate ].
Qed.

(** X8: [DebugLogMonitor.monitor] throws in one case only: when the
    lookback window gives no valid date, so that [toISOString] throws
    its RangeError; no query has been sent then.  Otherwise it returns
    a snapshot whose summary is the analysis of its errors, and a
    query that fails is absorbed: the errors are those of the failed
    Apex logs, one for each record and in their order, when the event
    log query answers with a non-zero [totalSize] and the Apex log
    query answers; they are empty when the first answer has
    [totalSize] 0, in which case the second query is not sent, and
    when either query fails, in which case the failure is logged and
    the snapshot is the one of an org without errors. *)
Theorem debug_monitor_throws_only_for_the_window (world : World.t) (config : Config.t)
    (s : Ext.t) :
  let hoursAgo :=
    Config.Intervals.debugLogHours
      (Config.Monitoring.intervals (Config.monitoring config)) in
  let snapshot errors :=
    {| DebugLogResults.errors := errors;
       DebugLogResults.summary := DebugLogMonitor.analyzeErrors errors |} in
  let failed e := LogError "Failed to query debug logs" (message e) in
  let s1 := Ext.ticked s in
  match sinceDateStr (World.now world (Ext.ticks s)) hoursAgo with
  | Throw e =>
      e = mkError "RangeError" "Invalid time value"
      /\ DebugLogMonitor.monitor world config s =
           (Throw e, Ext.logged (LogError "Debug log monitoring failed" (message e)) s1)
  | Ok _ =>
      match World.query world (Ext.queries s) with
      | Throw e =>
          DebugLogMonitor.monitor world config s =
            (Ok (snapshot []), Ext.logged (failed e) (Ext.queried s1))
      | Ok result =>
          if (QueryResult.totalSize result =? 0)%nat then
            DebugLogMonitor.monitor world config s = (Ok (snapshot []), Ext.queried s1)
          else
            match World.query world (Datatypes.S (Ext.queries s)) with
            | Throw e =>
                DebugLogMonitor.monitor world config s =
                  (Ok (snapshot []), Ext.logged (failed e) (Ext.queried (Ext.queried s1)))
            | Ok toolingResult =>
                DebugLogMonitor.monitor world config s =
                  (Ok (snapshot (map DebugLogMonitor.errorOf
                                   (QueryResult.records toolingResult))),
                   Ext.queried (Ext.queried s1))
            end
      end
  end.
Proof.
  cbn zeta.
  unfold DebugLogMonitor.monitor, DebugLogMonitor.queryDebugLogs.
  unfold try_catch, bind, lift, ret, throw, logger, Date_now, send_query.
  destruct (sinceDateStr _ _) as [d|e] eqn:Hwindow.
  - cbn [Ext.queried Ext.ticked Ext.queries].
    destruct (World.query world (Ext.queries s)) as [result|e]; [ | reflexivity ].
    destruct (QueryResult.totalSize result =? 0)%nat; [ reflexivity | ].
    cbn [Ext.queried Ext.ticked Ext.queries].
    destruct (World.query world (Datatypes.S (Ext.queries s))); reflexivity.
  - split; [ exact (sinceDateStr_throws _ _ _ Hwindow) | reflexivity ].
Qed.



Lemma filter_all {A} (f : A -> bool) (l : list A) :
  Forall (fun x => f x = true) l -> List.filter f l = l.
Proof.
  induction 1 as [|x l Hx _ IH]; simpl; [ reflexivity | ].
  rewrite Hx, IH. reflexivity.
Qed.




(** ** The governor limit monitor *)

Lemma after_draws_zero s : after_draws 0 s = s.
Proof. destruct s. reflexivity. Qed.





(** ** The limit analysis as a whole *)






(** ** Thresholds that are missing from the configuration *)




Section MissingThresholds.

Variable config : Config.t.

Let thresholds := Config.thresholds config.

Hypothesis no_absoluteCount :
  Config.ErrorRate.absoluteCount (Config.Thresholds.errorRate thresholds) = nan.
Hypothesis no_soqlQueries :
  Config.GovernorLimits.soqlQueries (Config.Thresholds.governorLimits thresholds) = nan.
Hypothesis no_cyclomaticComplexity :
  Config.CodeQuality.cyclomaticComplexity (Config.Thresholds.codeQuality thresholds) = nan.
Hypothesis no_classLength :
  Config.CodeQuality.classLength (Config.Thresholds.codeQuality thresholds) = nan.
Hypothesis no_minTestCoverage :
  Config.CodeQuality.minTestCoverage (Config.Thresholds.codeQuality thresholds) = nan.




End MissingThresholds.


(** ** The code quality monitor *)

Lemma methodLoop_returns world methods :
  forall totalComplexity methodCount s,
    exists total,
      CodeQualityMonitor.methodLoop world methods totalComplexity methodCount s =
        (Ok (total, (methodCount + length methods)%nat), after_draws (length methods) s).
Proof.
  induction methods as [|method methods IH]; intros totalComplexity methodCount s.
  - exists totalComplexity. simpl. unfold ret.
    rewrite after_draws_zero, Nat.add_0_r. reflexivity.
  - cbn [CodeQualityMonitor.methodLoop]. unfold bind, Math_random.
    match goal with
    | |- context [CodeQualityMonitor.methodLoop world methods ?t ?c ?st] =>
        destruct (IH t c st) as [total Hloop]
    end.
    exists total. rewrite Hloop. f_equal; [ do 2 f_equal; simpl; lia | ].
    unfold after_draws, Ext.drawn. simpl. f_equal. lia.
Qed.

Lemma methodLoop_blind world methods :
  forall methods' totalComplexity methodCount s,
    length methods = length methods' ->
    CodeQualityMonitor.methodLoop world methods totalComplexity methodCount s =
    CodeQualityMonitor.methodLoop world methods' totalComplexity methodCount s.
Proof.
  induction methods as [|method methods IH];
    intros [|method' methods'] totalComplexity methodCount s Hlength;
    try discriminate Hlength; [ reflexivity | ].
  cbn [CodeQualityMonitor.methodLoop]. unfold bind, Math_random.
  apply IH. simpl in Hlength. lia.
Qed.

(** X13: the complexity of a class is blind to its methods.
    [calculateComplexity] never throws, calls [Math.random()] once for
    each method of the symbol table and does nothing else; two symbol
    tables with the same number of methods, whatever those methods
    are, get the same complexity from the same sequence of random
    numbers. *)
Theorem calculateComplexity_is_blind_to_the_methods (world : World.t)
    (methods methods' : list SymbolTable.method) (s : Ext.t) :
  length methods = length methods' ->
  let table ms := Some {| SymbolTable.methods := Some ms |} in
  CodeQualityMonitor.calculateComplexity world (table methods) s =
  CodeQualityMonitor.calculateComplexity world (table methods') s
  /\ exists complexity,
       CodeQualityMonitor.calculateComplexity world (table methods) s =
         (Ok complexity, after_draws (length methods) s).
Proof.
  intros Hlength. cbn zeta. unfold CodeQualityMonitor.calculateComplexity.
  cbn [SymbolTable.methods]. unfold bind.
  rewrite (methodLoop_blind world methods methods' _ _ _ Hlength).
  destruct (methodLoop_returns world methods' 0%float 0%nat s) as [total Hloop].
  rewrite Hloop, <- Hlength. split; [ reflexivity | ].
  eexists. reflexivity.
Qed.

Lemma calculateComplexity_is_blind_to_the_methods_witness :
  let table ms := Some {| SymbolTable.methods := Some ms |} in
  CodeQualityMonitor.calculateComplexity Sample.world
    (table [ {| SymbolTable.methodName := "execute" |};
             {| SymbolTable.methodName := "finish" |} ]) Sample.ext
  = CodeQualityMonitor.calculateComplexity Sample.world
      (table [ {| SymbolTable.methodName := "a" |}; {| SymbolTable.methodName := "b" |} ])
      Sample.ext
  /\ exists complexity,
       CodeQualityMonitor.calculateComplexity Sample.world
         (table [ {| SymbolTable.methodName := "execute" |};
                  {| SymbolTable.methodName := "finish" |} ]) Sample.ext
       = (Ok complexity, after_draws 2 Sample.ext).
Proof.
  exact (calculateComplexity_is_blind_to_the_methods Sample.world
           [ {| SymbolTable.methodName := "execute" |};
             {| SymbolTable.methodName := "finish" |} ]
           [ {| SymbolTable.methodName := "a" |}; {| SymbolTable.methodName := "b" |} ]
           Sample.ext eq_refl).
Defined.

Lemma calculateComplexity_returns world symbolTable s :
  exists complexity n,
    CodeQualityMonitor.calculateComplexity world symbolTable s =
      (Ok complexity, after_draws n s).
Proof.
  unfold CodeQualityMonitor.calculateComplexity.
  destruct symbolTable as [[[methods|]]|];
    try (exists 0%float, 0%nat; unfold ret; rewrite after_draws_zero; reflexivity).
  cbn [SymbolTable.methods]. unfold bind.
  destruct (methodLoop_returns world methods 0%float 0%nat s) as [total Hloop].
  rewrite Hloop. do 2 eexists. reflexivity.
Qed.

(** What [analyzeApexClasses] copies from an [ApexClass] record. *)
Lemma classOf_returns world cls s :
  exists class s',
    CodeQualityMonitor.classOf world cls s = (Ok class, s')
    /\ describes cls class
    /\ Ext.queries s' = Datatypes.S (Ext.queries s)
    /\ Ext.ticks s' = Ext.ticks s
    /\ Ext.reports s' = Ext.reports s.
Proof.
  unfold CodeQualityMonitor.classOf.
  unfold try_catch, bind at 1 2 3, send_query, logger, ret.
  destruct (World.query world (Ext.queries s)) as [symbolResult|e]; unfold bind;
    match goal with
    | |- context [CodeQualityMonitor.calculateComplexity world ?st ?s1] =>
        destruct (calculateComplexity_returns world st s1) as (complexity & n & Hc)
    end;
    rewrite Hc; do 2 eexists; (split; [ reflexivity | ]); unfold describes; repeat split.
Qed.

Lemma for_each_classOf world records :
  forall s,
    exists classes s',
      for_each (CodeQualityMonitor.classOf world) records s = (Ok classes, s')
      /\ Forall2 describes records classes
      /\ Ext.queries s' = (length records + Ext.queries s)%nat
      /\ Ext.ticks s' = Ext.ticks s
      /\ Ext.reports s' = Ext.reports s.
Proof.
  induction records as [|cls records IH]; intros s.
  - exists [], s. split; [ reflexivity | ]. repeat split. constructor.
  - destruct (classOf_returns world cls s) as (class & s1 & Hclass & Hd & Hq & Ht & Hr).
    destruct (IH s1) as (classes & s2 & Hrest & Hall & Hq2 & Ht2 & Hr2).
    exists (class :: classes), s2. split; [ | split; [ constructor; assumption | ] ].
    + cbn [for_each]. unfold bind at 1. rewrite Hclass.
      unfold bind at 1. rewrite Hrest. reflexivity.
    + rewrite Hq2, Hq, Ht2, Ht, Hr2, Hr. simpl. repeat split. lia.
Qed.

(** X14: [CodeQualityMonitor.monitor] never throws, reads no clock and
    reports nothing.  When the query of the active classes fails the
    failure is logged and the snapshot is empty.  When it answers, the
    snapshot has one class for each record, in their order, with the
    name, the length (0 for a missing one) and the API version of the
    record, and no test coverage; one more query is sent for each
    class, and a class whose symbol table query fails is kept.  The
    issues of the snapshot are those of its classes. *)
Theorem quality_monitor_never_throws (world : World.t) (config : Config.t) (s : Ext.t) :
  let snapshot classes :=
    {| CodeQualityResults.classes := classes;
       CodeQualityResults.issues := CodeQualityMonitor.identifyIssues config classes |} in
  exists classes s',
    CodeQualityMonitor.monitor world config s = (Ok (snapshot classes), s')
    /\ Ext.ticks s' = Ext.ticks s
    /\ Ext.reports s' = Ext.reports s
    /\ match World.query world (Ext.queries s) with
       | Throw e =>
           classes = []
           /\ s' = Ext.logged (LogError "Failed to analyze Apex classes" (message e))
                     (Ext.queried s)
       | Ok result =>
           Forall2 describes (QueryResult.records result) classes
           /\ Ext.queries s' =
                (1 + length (QueryResult.records result) + Ext.queries s)%nat
       end.
Proof.
  cbn zeta.
  unfold CodeQualityMonitor.monitor, CodeQualityMonitor.analyzeApexClasses.
  unfold try_catch at 1 2. unfold bind at 1 2. unfold send_query.
  destruct (World.query world (Ext.queries s)) as [result|e].
  - destruct (for_each_classOf world (QueryResult.records result) (Ext.queried s))
      as (classes & s' & Hloop & Hall & Hq & Ht & Hr).
    rewrite Hloop. exists classes, s'. split; [ reflexivity | ].
    split; [ exact Ht | ]. split; [ exact Hr | ]. split; [ exact Hall | ].
    rewrite Hq. simpl. lia.
  - exists []. eexists. split; [ reflexivity | ]. repeat split.
Qed.

(** ** The issues of the classes *)

Lemma classIssues_exceeds config cls :
  (0 <? length (CodeQualityMonitor.classIssues config cls))%nat = exceeds config cls.
Proof.
  unfold CodeQualityMonitor.classIssues, exceeds. cbn zeta.
  destruct (JS.gt (ApexClass.complexity cls) _), (JS.gt (ApexClass.length cls) _);
    try reflexivity.
  destruct (ApexClass.testCoverage cls) as [coverage|]; [ | reflexivity ].
  destruct (JS.lt coverage _); reflexivity.
Qed.

Lemma classIssues_length config cls :
  (length (CodeQualityMonitor.classIssues config cls) <= 3)%nat
  /\ (ApexClass.testCoverage cls = None ->
      (length (CodeQualityMonitor.classIssues config cls) <= 2)%nat).
Proof.
  unfold CodeQualityMonitor.classIssues. cbn zeta.
  destruct (JS.gt (ApexClass.complexity cls) _), (JS.gt (ApexClass.length cls) _);
    (destruct (ApexClass.testCoverage cls) as [coverage|];
     [ destruct (JS.lt coverage _) | ]);
    simpl; split; try lia; intros; try discriminate; lia.
Qed.

Lemma identifyIssues_filter config classes :
  CodeQualityMonitor.identifyIssues config classes =
  map (issueOf config) (List.filter (exceeds config) classes).
Proof.
  unfold CodeQualityMonitor.identifyIssues.
  induction classes as [|cls classes IH]; [ reflexivity | ].
  cbn [flat_map List.filter]. rewrite IH, classIssues_exceeds.
  destruct (exceeds config cls); reflexivity.
Qed.

(** X15: [identifyIssues] reports the classes that are over a
    threshold, in the order of the input, and no other class: a class
    is reported when its complexity is greater than
    [cyclomaticComplexity], when its length is greater than
    [classLength], or when it has a test coverage and that coverage is
    less than [minTestCoverage]; a value equal to its threshold is not
    an issue.  Each reported class carries between one and three
    issues, listed in that order, and its three metrics. *)
Theorem identifyIssues_reports_classes_over_a_threshold (config : Config.t)
    (classes : list ApexClass.t) :
  let thresholds := Config.Thresholds.codeQuality (Config.thresholds config) in
  let issues := CodeQualityMonitor.identifyIssues config classes in
  issues = map (issueOf config) (List.filter (exceeds config) classes)
  /\ Forall (fun issue =>
               (1 <= length (QualityIssue.issues issue) <= 3)%nat) issues
  /\ forall cls,
       QualityIssue.issues (issueOf config cls) =
         (if JS.gt (ApexClass.complexity cls)
               (Config.CodeQuality.cyclomaticComplexity thresholds)
          then [HighComplexity (ApexClass.complexity cls)] else [])
         ++ (if JS.gt (ApexClass.length cls) (Config.CodeQuality.classLength thresholds)
             then [ClassTooLong (ApexClass.length cls)] else [])
         ++ (match ApexClass.testCoverage cls with
             | Some coverage =>
                 if JS.lt coverage (Config.CodeQuality.minTestCoverage thresholds)
                 then [LowTestCoverage coverage] else []
             | None => []
             end).
Proof.
  cbn zeta. rewrite identifyIssues_filter.
  split; [ reflexivity | ]. split; [ | reflexivity ].
  apply List.Forall_forall. intros issue Hin.
  apply in_map_iff in Hin. destruct Hin as [cls [<- Hin]].
  apply filter_In in Hin. destruct Hin as [_ Hover].
  rewrite <- classIssues_exceeds in Hover. apply Nat.ltb_lt in Hover.
  cbn [issueOf QualityIssue.issues].
  pose proof (proj1 (classIssues_length config cls)). lia.
Qed.

Lemma quality_monitor_classes world config s :
  exists classes s',
    CodeQualityMonitor.monitor world config s =
      (Ok {| CodeQualityResults.classes := classes;
             CodeQualityResults.issues :=
               CodeQualityMonitor.identifyIssues config classes |}, s')
    /\ Forall (fun class => ApexClass.testCoverage class = None) classes.
Proof.
  unfold CodeQualityMonitor.monitor, CodeQualityMonitor.analyzeApexClasses.
  unfold try_catch at 1 2. unfold bind at 1 2. unfold send_query.
  destruct (World.query world (Ext.queries s)) as [result|e].
  - destruct (for_each_classOf world (QueryResult.records result) (Ext.queried s))
      as (classes & s' & Hloop & Hall & _).
    rewrite Hloop. exists classes, s'. split; [ reflexivity | ].
    clear Hloop. induction Hall as [|cls class records classes Hd _ IH]; constructor.
    + exact (proj2 (proj2 (proj2 Hd))).
    + exact IH.
  - exists []. eexists. split; [ reflexivity | constructor ].
Qed.

(** X16: the severity MEDIUM of a code quality anomaly cannot occur in
    a run.  It takes three issues on one class, the third of which is a
    low test coverage, and the snapshot of
    [CodeQualityMonitor.monitor] holds no test coverage: each of its
    issues has one or two entries, and each anomaly that the detector
    derives from it has severity LOW. *)
Theorem quality_anomalies_of_a_snapshot_are_low (world : World.t) (config : Config.t)
    (s : Ext.t) :
  exists snapshot s',
    CodeQualityMonitor.monitor world config s = (Ok snapshot, s')
    /\ Forall (fun issue => (1 <= length (QualityIssue.issues issue) <= 2)%nat)
         (CodeQualityResults.issues snapshot)
    /\ length (AnomalyDetector.detectQualityAnomalies snapshot) =
         length (CodeQualityResults.issues snapshot)
    /\ Forall (fun a =>
                 Anomaly.type a = CODE_QUALITY_ISSUE /\ Anomaly.severity a = LOW)
         (AnomalyDetector.detectQualityAnomalies snapshot).
Proof.
  destruct (quality_monitor_classes world config s) as (classes & s' & Hmonitor & Hnone).
  eexists. exists s'. split; [ exact Hmonitor | ].
  cbn [CodeQualityResults.issues].
  assert (Hissues : Forall (fun issue =>
                              (1 <= length (QualityIssue.issues issue) <= 2)%nat)
                      (CodeQualityMonitor.identifyIssues config classes)).
  { rewrite identifyIssues_filter.
    apply List.Forall_forall. intros issue Hin.
    apply in_map_iff in Hin. destruct Hin as [cls [<- Hin]].
    apply filter_In in Hin. destruct Hin as [Hcls Hover].
    rewrite <- classIssues_exceeds in Hover. apply Nat.ltb_lt in Hover.
    cbn [issueOf QualityIssue.issues].
    rewrite List.Forall_forall in Hnone.
    pose proof (proj2 (classIssues_length config cls) (Hnone cls Hcls)). lia. }
  split; [ exact Hissues | ].
  unfold AnomalyDetector.detectQualityAnomalies. cbn [CodeQualityResults.issues].
  split; [ apply length_map | ].
  apply List.Forall_forall. intros a Hin.
  apply in_map_iff in Hin. destruct Hin as [issue [<- Hin]].
  rewrite List.Forall_forall in Hissues. specialize (Hissues issue Hin).
  unfold AnomalyDetector.qualityAnomaly. cbn [Anomaly.type Anomaly.severity].
  split; [ reflexivity | ].
  destruct (3 <=? length (QualityIssue.issues issue))%nat eqn:Hthree; [ | reflexivity ].
  apply Nat.leb_le in Hthree. lia.
Qed.

(** ** The detector *)



Lemma of_type_app type l l' : of_type type (l ++ l') = of_type type l ++ of_type type l'.
Proof. unfold of_type. apply List.filter_app. Qed.

Lemma of_type_all type l :
  Forall (fun a => Anomaly.type a = type) l -> of_type type l = l.
Proof.
  intros Hall. unfold of_type. apply filter_all.
  eapply List.Forall_impl; [ | exact Hall ].
  intros a Ha. simpl. apply bool_decide_eq_true. exact Ha.
Qed.

Lemma of_type_none type l :
  Forall (fun a => Anomaly.type a <> type) l -> of_type type l = [].
Proof.
  unfold of_type. induction 1 as [|a l Ha _ IH]; [ reflexivity | ].
  simpl. rewrite IH. destruct (bool_decide_reflect (Anomaly.type a = type)); tauto.
Qed.

Section DetectFacts.

Context {Database : Type}.
Variable this : AnomalyDetector.t Database.

Lemma error_anomalies_types snapshot :
  Forall (fun a =>
            (Anomaly.type a = HIGH_ERROR_RATE \/ Anomaly.type a = MULTIPLE_ERROR_TYPES)
            /\ severity_of_type (Anomaly.type a) (Anomaly.severity a) = true)
    (AnomalyDetector.detectErrorAnomalies this snapshot).
Proof.
  unfold AnomalyDetector.detectErrorAnomalies. cbn zeta.
  destruct (JS.ge _ _), (5 <? _)%nat; simpl; repeat constructor; simpl; tauto.
Qed.

Lemma limit_anomalies_types limits :
  Forall (fun a =>
            Anomaly.type a = HIGH_GOVERNOR_LIMIT_USAGE
            /\ severity_of_type (Anomaly.type a) (Anomaly.severity a) = true)
    (AnomalyDetector.detectLimitAnomalies limits).
Proof.
  unfold AnomalyDetector.detectLimitAnomalies. cbn zeta.
  destruct (0 <? _)%nat; [ | constructor ].
  apply List.Forall_forall. intros a Hin. apply in_map_iff in Hin.
  destruct Hin as [usage [<- _]].
  unfold AnomalyDetector.limitAnomaly, AnomalyDetector.limitSeverity. simpl.
  split; [ reflexivity | ]. destruct (JS.ge _ 90); [ reflexivity | ].
  destruct (JS.ge _ 80); reflexivity.
Qed.

Lemma quality_anomalies_types quality :
  Forall (fun a =>
            Anomaly.type a = CODE_QUALITY_ISSUE
            /\ severity_of_type (Anomaly.type a) (Anomaly.severity a) = true)
    (AnomalyDetector.detectQualityAnomalies quality).
Proof.
  unfold AnomalyDetector.detectQualityAnomalies.
  apply List.Forall_forall. intros a Hin. apply in_map_iff in Hin.
  destruct Hin as [issue [<- _]].
  unfold AnomalyDetector.qualityAnomaly. cbn [Anomaly.type Anomaly.severity].
  split; [ reflexivity | ]. destruct (3 <=? _)%nat; reflexivity.
Qed.

(** X18: what [detect] returns, type by type.  The anomalies come in
    the order of the monitors: those of the errors, those of the
    limits, those of the code quality.  There is one
    HIGH_GOVERNOR_LIMIT_USAGE anomaly for each element of
    [highUsage], provided [highUsageCount] is not 0, and one
    CODE_QUALITY_ISSUE anomaly for each element of [issues]; a
    monitor that did not run contributes none.  The severity of an
    anomaly is one its type allows: HIGH for HIGH_ERROR_RATE, MEDIUM
    for MULTIPLE_ERROR_TYPES, MEDIUM, HIGH or CRITICAL for a limit,
    LOW or MEDIUM for a code quality issue. *)
Theorem detect_by_type (results : MonitoringResults.t) :
  let anomalies := AnomalyDetector.detect this results in
  Forall (fun a => severity_of_type (Anomaly.type a) (Anomaly.severity a) = true)
    anomalies
  /\ anomalies =
       (of_type HIGH_ERROR_RATE anomalies ++ of_type MULTIPLE_ERROR_TYPES anomalies)
       ++ of_type HIGH_GOVERNOR_LIMIT_USAGE anomalies
       ++ of_type CODE_QUALITY_ISSUE anomalies
  /\ length (of_type HIGH_GOVERNOR_LIMIT_USAGE anomalies) =
       match MonitoringResults.governorLimits results with
       | Some limits =>
           let analysis := GovernorLimitResults.analysis limits in
           if (0 <? LimitAnalysis.highUsageCount analysis)%nat
           then length (LimitAnalysis.highUsage analysis)
           else 0%nat
       | None => 0%nat
       end
  /\ length (of_type CODE_QUALITY_ISSUE anomalies) =
       match MonitoringResults.codeQuality results with
       | Some quality => length (CodeQualityResults.issues quality)
       | None => 0%nat
       end.
Proof.
  cbn zeta. unfold AnomalyDetector.detect.
  set (E := match MonitoringResults.debugLogs results with
            | Some debugLogs => AnomalyDetector.detectErrorAnomalies this debugLogs
            | None => []
            end).
  set (L := match MonitoringResults.governorLimits results with
            | Some limits => AnomalyDetector.detectLimitAnomalies limits
            | None => []
            end).
  set (Q := match MonitoringResults.codeQuality results with
            | Some quality => AnomalyDetector.detectQualityAnomalies quality
            | None => []
            end).
  assert (HE : Forall (fun a =>
                         (Anomaly.type a = HIGH_ERROR_RATE
                          \/ Anomaly.type a = MULTIPLE_ERROR_TYPES)
                         /\ severity_of_type (Anomaly.type a) (Anomaly.severity a) = true) E).
  { unfold E. destruct (MonitoringResults.debugLogs results);
      [ apply error_anomalies_types | constructor ]. }
  assert (HL : Forall (fun a =>
                         Anomaly.type a = HIGH_GOVERNOR_LIMIT_USAGE
                         /\ severity_of_type (Anomaly.type a) (Anomaly.severity a) = true) L).
  { unfold L. destruct (MonitoringResults.governorLimits results);
      [ apply limit_anomalies_types | constructor ]. }
  assert (HQ : Forall (fun a =>
                         Anomaly.type a = CODE_QUALITY_ISSUE
                         /\ severity_of_type (Anomaly.type a) (Anomaly.severity a) = true) Q).
  { unfold Q. destruct (MonitoringResults.codeQuality results);
      [ apply quality_anomalies_types | constructor ]. }
  assert (HEsplit : E = of_type HIGH_ERROR_RATE E ++ of_type MULTIPLE_ERROR_TYPES E).
  { unfold E. destruct (MonitoringResults.debugLogs results) as [debugLogs|];
      [ | reflexivity ].
    unfold AnomalyDetector.detectErrorAnomalies. cbn zeta.
    destruct (JS.ge _ _), (5 <? _)%nat; reflexivity. }
  rewrite !of_type_app.
  rewrite (of_type_none HIGH_ERROR_RATE L), (of_type_none HIGH_ERROR_RATE Q),
    (of_type_none MULTIPLE_ERROR_TYPES L), (of_type_none MULTIPLE_ERROR_TYPES Q),
    (of_type_none HIGH_GOVERNOR_LIMIT_USAGE E), (of_type_none HIGH_GOVERNOR_LIMIT_USAGE Q),
    (of_type_none CODE_QUALITY_ISSUE E), (of_type_none CODE_QUALITY_ISSUE L),
    (of_type_all HIGH_GOVERNOR_LIMIT_USAGE L), (of_type_all CODE_QUALITY_ISSUE Q);
    try (eapply List.Forall_impl; [ | eassumption ]; simpl; intros a Ha;
         intuition congruence).
  rewrite !app_nil_r. cbn [app].
  split; [ | split; [ | split ] ].
  - repeat (apply List.Forall_app; split);
      (eapply List.Forall_impl; [ | eassumption ]); simpl; tauto.
  - rewrite <- HEsplit. reflexivity.
  - unfold L. destruct (MonitoringResults.governorLimits results) as [limits|];
      [ | reflexivity ].
    unfold AnomalyDetector.detectLimitAnomalies. cbn zeta.
    destruct (0 <? _)%nat; [ apply length_map | reflexivity ].
  - unfold Q. destruct (MonitoringResults.codeQuality results) as [quality|];
      [ | reflexivity ].
    unfold AnomalyDetector.detectQualityAnomalies. apply length_map.
Qed.

End DetectFacts.

(** ** The store *)

Lemma ended_started runId status duration tables :
  well_numbered tables ->
  runId = (Tables.sequence tables + 1)%N ->
  map (fun row =>
         if (RunRow.id row =? runId)%N
         then {| RunRow.id := RunRow.id row; RunRow.status := status;
                 RunRow.duration_ms := Some duration |}
         else row)
    (Tables.monitoring_runs (Tables.started tables))
  = Tables.monitoring_runs tables ++ [closed runId status duration].
Proof.
  intros Hwell ->. unfold Tables.started. cbn [Tables.monitoring_runs].
  rewrite map_app. cbn [map RunRow.id]. rewrite N.eqb_refl. f_equal.
  unfold well_numbered in Hwell.
  induction Hwell as [|row rows Hrow _ IH]; [ reflexivity | ].
  cbn [map]. rewrite IH.
  replace (RunRow.id row =? Tables.sequence tables + 1)%N with false
    by (symmetry; apply N.eqb_neq; lia).
  reflexivity.
Qed.

(** X19: a run that is started and then ended leaves one new row, and
    leaves the rest of the store as it was.  On a store whose run ids
    are the ones AUTOINCREMENT gave out, and that accepts the two
    statements, [startRun] returns an id that no row has yet, one more
    than the last id given out, and [endRun] with that id sets the
    status and the duration of that row alone: [monitoring_runs] is
    what it was, followed by the row of the run; the three other
    tables are unchanged; and the ids are again the ones given out. *)
Theorem startRun_endRun_round_trip (world : World.t) (this : MonitoringDatabase.t)
    (status : string) (durationMs : float) :
  well_numbered (MonitoringDatabase.tables this) ->
  World.store world (MonitoringDatabase.calls this) = None ->
  World.store world (Datatypes.S (MonitoringDatabase.calls this)) = None ->
  let tables := MonitoringDatabase.tables this in
  let runId := (Tables.sequence tables + 1)%N in
  exists started ended,
    MonitoringDatabase.startRun world this = (Ok runId, started)
    /\ Forall (fun row => RunRow.id row <> runId) (Tables.monitoring_runs tables)
    /\ MonitoringDatabase.endRun world runId status durationMs started = (Ok tt, ended)
    /\ MonitoringDatabase.tables ended =
         {| Tables.sequence := runId;
            Tables.monitoring_runs :=
              Tables.monitoring_runs tables ++ [closed runId status durationMs];
            Tables.debug_log_errors := Tables.debug_log_errors tables;
            Tables.governor_limits := Tables.governor_limits tables;
            Tables.anomalies := Tables.anomalies tables |}
    /\ well_numbered (MonitoringDatabase.tables ended).
Proof.
  intros Hwell Hstart Hend. cbn zeta.
  unfold MonitoringDatabase.startRun, MonitoringDatabase.endRun.
  rewrite call_succeeds by exact Hstart.
  do 2 eexists. split; [ reflexivity | ]. split; [ | split; [ | split ] ].
  - eapply List.Forall_impl; [ | exact Hwell ]. simpl. intros row Hrow. lia.
  - rewrite call_succeeds by exact Hend. reflexivity.
  - cbn [MonitoringDatabase.tables]. unfold Tables.ended.
    rewrite (ended_started _ status durationMs _ Hwell eq_refl). reflexivity.
  - cbn [MonitoringDatabase.tables]. unfold well_numbered, Tables.ended.
    cbn [Tables.monitoring_runs Tables.sequence].
    rewrite (ended_started _ status durationMs _ Hwell eq_refl).
    apply List.Forall_app. split.
    + eapply List.Forall_impl; [ | exact Hwell ]. simpl. intros row Hrow.
      unfold Tables.started. cbn [Tables.sequence]. lia.
    + repeat constructor. unfold Tables.started. cbn [Tables.sequence closed RunRow.id]. lia.
Qed.

Lemma startRun_endRun_round_trip_witness :
  exists started ended,
    MonitoringDatabase.startRun Sample.world Sample.emptyDb = (Ok 1%N, started)
    /\ Forall (fun row => RunRow.id row <> 1%N) []
    /\ MonitoringDatabase.endRun Sample.world 1 "completed" 3000 started = (Ok tt, ended)
    /\ MonitoringDatabase.tables ended =
         {| Tables.sequence := 1;
            Tables.monitoring_runs := [closed 1 "completed" 3000];
            Tables.debug_log_errors := [];
            Tables.governor_limits := [];
            Tables.anomalies := [] |}
    /\ well_numbered (MonitoringDatabase.tables ended).
Proof.
  exact (startRun_endRun_round_trip Sample.world Sample.emptyDb "completed" 3000
           (List.Forall_nil _) eq_refl eq_refl).
Defined.

(** ** A run that completes *)


Section RunCompletes.

Variable world : World.t.
Variable config : Config.t.
Variable salesforceAuth : SalesforceAuth.t.
Variable debugLogMonitor : Connection -> M Ext.t DebugLogResults.t.
Variable governorLimitMonitor : Connection -> M Ext.t GovernorLimitResults.t.
Variable codeQualityMonitor : Connection -> M Ext.t CodeQualityResults.t.

Hypothesis healthy : forall k, World.store world k = None.

Let enabled := Config.Monitoring.enabled (Config.monitoring config).




Lemma run_after_return (s : Sys.t) result s' :
  MonitoringOrchestrator.tryBlock world config salesforceAuth
    debugLogMonitor governorLimitMonitor codeQualityMonitor
    (World.now world (Ext.ticks (Sys.ext s)))
    (Tables.sequence (MonitoringDatabase.tables (Sys.db s)) + 1)%N
    {| Sys.ext := Ext.ticked (Sys.ext s);
       Sys.db :=
         {| MonitoringDatabase.calls := Datatypes.S (MonitoringDatabase.calls (Sys.db s));
            MonitoringDatabase.tables :=
              Tables.started (MonitoringDatabase.tables (Sys.db s)) |} |}
  = (Ok result, s') ->
  MonitoringOrchestrator.run_with world config salesforceAuth
    debugLogMonitor governorLimitMonitor codeQualityMonitor s = (Ok result, s').
Proof.
  intros Htry. unfold MonitoringOrchestrator.run_with.
  unfold bind at 1. unfold on_ext at 1, Date_now at 1.
  unfold on_db at 1, MonitoringDatabase.startRun. cbn [Sys.db Sys.ext].
  rewrite call_succeeds by apply healthy.
  unfold try_catch. rewrite Htry. reflexivity.
Qed.


End RunCompletes.


(** ** The row of a run, whatever the monitors do *)

Lemma same_runs_refl s : same_runs s s.
Proof. split; reflexivity. Qed.

Lemma same_runs_trans s1 s2 s3 : same_runs s1 s2 -> same_runs s2 s3 -> same_runs s1 s3.
Proof. intros [H1 H2] [H3 H4]. split; congruence. Qed.

Lemma on_ext_same_runs {A} (m : M Ext.t A) s r s' :
  on_ext m s = (r, s') -> same_runs s s'.
Proof.
  unfold on_ext. destruct (m (Sys.ext s)). intros [= <- <-]. split; reflexivity.
Qed.

Lemma call_same_runs {A} world (result : Tables.t -> A) effect s r s' :
  (forall tables,
      Tables.monitoring_runs (effect tables) = Tables.monitoring_runs tables
      /\ Tables.sequence (effect tables) = Tables.sequence tables) ->
  on_db (MonitoringDatabase.call world result effect) s = (r, s') ->
  same_runs s s'.
Proof.
  intros Heffect. unfold on_db, MonitoringDatabase.call.
  destruct (World.store world _); intros [= <- <-]; [ split; reflexivity | ].
  unfold same_runs, runs_of. cbn [Sys.db MonitoringDatabase.tables]. apply Heffect.
Qed.

Section RunRows.

Variable world : World.t.
Variable config : Config.t.
Variable salesforceAuth : SalesforceAuth.t.
Variable debugLogMonitor : Connection -> M Ext.t DebugLogResults.t.
Variable governorLimitMonitor : Connection -> M Ext.t GovernorLimitResults.t.
Variable codeQualityMonitor : Connection -> M Ext.t CodeQualityResults.t.

Lemma runDebugLogs_same_runs runId conn s r s' :
  MonitoringOrchestrator.runDebugLogs world config debugLogMonitor runId conn s = (r, s') ->
  same_runs s s'.
Proof.
  unfold MonitoringOrchestrator.runDebugLogs.
  destruct (Config.Enabled.debugLogs _); [ | intros [= <- <-]; apply same_runs_refl ].
  unfold bind at 1.
  destruct (on_ext (debugLogMonitor conn) s) as [[debugLogs|e] s1] eqn:H1;
    [ | intros [= <- <-]; exact (on_ext_same_runs _ _ _ _ H1) ].
  apply on_ext_same_runs in H1. unfold bind, ret.
  destruct (0 <? _)%nat.
  - destruct (on_db _ s1) as [[[]|e] s2] eqn:H2; intros [= <- <-];
      (eapply same_runs_trans; [ exact H1 | ]);
      (eapply call_same_runs; [ | exact H2 ]); intros tables; split; reflexivity.
  - intros [= <- <-]. exact H1.
Qed.

Lemma runGovernorLimits_same_runs runId conn s r s' :
  MonitoringOrchestrator.runGovernorLimits world config governorLimitMonitor runId conn s
  = (r, s') ->
  same_runs s s'.
Proof.
  unfold MonitoringOrchestrator.runGovernorLimits.
  destruct (Config.Enabled.governorLimits _); [ | intros [= <- <-]; apply same_runs_refl ].
  unfold bind at 1.
  destruct (on_ext (governorLimitMonitor conn) s) as [[governorLimits|e] s1] eqn:H1;
    [ | intros [= <- <-]; exact (on_ext_same_runs _ _ _ _ H1) ].
  apply on_ext_same_runs in H1. unfold bind, ret.
  destruct (0 <? _)%nat.
  - destruct (on_db _ s1) as [[[]|e] s2] eqn:H2; intros [= <- <-];
      (eapply same_runs_trans; [ exact H1 | ]);
      (eapply call_same_runs; [ | exact H2 ]); intros tables; split; reflexivity.
  - intros [= <- <-]. exact H1.
Qed.

Lemma runCodeQuality_same_runs conn s r s' :
  MonitoringOrchestrator.runCodeQuality config codeQualityMonitor conn s = (r, s') ->
  same_runs s s'.
Proof.
  unfold MonitoringOrchestrator.runCodeQuality.
  destruct (Config.Enabled.codeQuality _); [ | intros [= <- <-]; apply same_runs_refl ].
  unfold bind, ret.
  destruct (on_ext (codeQualityMonitor conn) s) as [[codeQuality|e] s1] eqn:H1;
    intros [= <- <-]; exact (on_ext_same_runs _ _ _ _ H1).
Qed.

(** What the [try] block does to [monitoring_runs]: nothing when it
    throws, the update of [endRun] when it returns. *)
Lemma tryBlock_runs startTime runId s r s' :
  MonitoringOrchestrator.tryBlock world config salesforceAuth
    debugLogMonitor governorLimitMonitor codeQualityMonitor startTime runId s = (r, s') ->
  match r with
  | Throw _ => same_runs s s'
  | Ok result =>
      exists duration anomalies results,
        result = RunResult.Success runId duration anomalies results
        /\ runs_of s' =
             map (fun row =>
                    if (RunRow.id row =? runId)%N
                    then {| RunRow.id := RunRow.id row; RunRow.status := "completed";
                            RunRow.duration_ms := Some duration |}
                    else row)
               (runs_of s)
        /\ Tables.sequence (MonitoringDatabase.tables (Sys.db s')) =
           Tables.sequence (MonitoringDatabase.tables (Sys.db s))
  end.
Proof.
  unfold MonitoringOrchestrator.tryBlock. intros H.
  unfold bind in H at 1. unfold lift in H at 1.
  destruct (SalesforceAuth.getConnection salesforceAuth) as [conn|e];
    [ | injection H as <- <-; apply same_runs_refl ].
  unfold bind in H at 1.
  destruct (MonitoringOrchestrator.runDebugLogs _ _ _ _ _ s) as [[debugLogs|e] s1] eqn:H1;
    apply runDebugLogs_same_runs in H1; [ | injection H as <- <-; exact H1 ].
  unfold bind in H at 1.
  destruct (MonitoringOrchestrator.runGovernorLimits _ _ _ _ _ s1)
    as [[governorLimits|e] s2] eqn:H2;
    apply runGovernorLimits_same_runs in H2;
    [ | injection H as <- <-; exact (same_runs_trans _ _ _ H1 H2) ].
  pose proof (same_runs_trans _ _ _ H1 H2) as H12. clear H1 H2.
  unfold bind in H at 1.
  destruct (MonitoringOrchestrator.runCodeQuality _ _ _ s2)
    as [[codeQuality|e] s3] eqn:H3;
    apply runCodeQuality_same_runs in H3;
    [ | injection H as <- <-; exact (same_runs_trans _ _ _ H12 H3) ].
  pose proof (same_runs_trans _ _ _ H12 H3) as H13. clear H12 H3.
  cbn zeta in H.
  set (results := {| MonitoringResults.debugLogs := debugLogs;
                     MonitoringResults.governorLimits := governorLimits;
                     MonitoringResults.codeQuality := codeQuality |}) in H.
  set (anomalies := AnomalyDetector.detect _ results) in H.
  unfold bind in H at 1.
  assert (H4 : forall r4 s4,
             (if (0 <? length anomalies)%nat
              then on_db (MonitoringDatabase.insertAnomalies world runId anomalies)
              else ret tt) s3 = (r4, s4) -> same_runs s3 s4).
  { intros r4 s4. destruct (0 <? _)%nat.
    - intros Hcall. eapply call_same_runs; [ | exact Hcall ].
      intros tables; split; reflexivity.
    - intros [= <- <-]. apply same_runs_refl. }
  destruct ((if (0 <? length anomalies)%nat
             then on_db (MonitoringDatabase.insertAnomalies world runId anomalies)
             else ret tt) s3) as [[[]|e] s4] eqn:Hinsert;
    specialize (H4 _ _ eq_refl); clear Hinsert; rename H4 into Hinsert;
    [ | injection H as <- <-; exact (same_runs_trans _ _ _ H13 Hinsert) ].
  pose proof (same_runs_trans _ _ _ H13 Hinsert) as H14. clear H13 Hinsert.
  unfold bind in H at 1.
  destruct (on_ext (Notifier.notify config anomalies results) s4) as [[[]|e] s5] eqn:H5;
    apply on_ext_same_runs in H5;
    [ | injection H as <- <-; exact (same_runs_trans _ _ _ H14 H5) ].
  pose proof (same_runs_trans _ _ _ H14 H5) as H15. clear H14 H5.
  unfold bind in H at 1.
  destruct (on_ext (Date_now world) s5) as [[now|e] s6] eqn:H6;
    apply on_ext_same_runs in H6;
    [ | injection H as <- <-; exact (same_runs_trans _ _ _ H15 H6) ].
  pose proof (same_runs_trans _ _ _ H15 H6) as [Hruns Hseq]. clear H15 H6.
  unfold bind, ret, on_db, MonitoringDatabase.endRun, MonitoringDatabase.call in H.
  destruct (World.store world _); injection H as <- <-.
  - split; [ exact Hruns | exact Hseq ].
  - do 3 eexists. split; [ reflexivity | ].
    unfold runs_of in *. cbn [Sys.db MonitoringDatabase.tables Tables.ended
                              Tables.monitoring_runs Tables.sequence].
    rewrite Hruns. split; [ reflexivity | exact Hseq ].
Qed.

(** X21: with a working store, [run] never throws and never leaves
    its row as [running], whatever the monitors, the configuration
    and the connection.  It returns a result object; the store has
    one more run, whose id is one more than the last id given out
    and whose row is closed, as [completed] with the elapsed time
    when the result is the success object, which carries that id,
    and as [failed] when it is the failure object; the rows of the
    earlier runs are untouched. *)
Theorem run_closes_its_row_when_the_store_works (s : Sys.t) :
  (forall k, World.store world k = None) ->
  well_numbered (MonitoringDatabase.tables (Sys.db s)) ->
  let runId := (Tables.sequence (MonitoringDatabase.tables (Sys.db s)) + 1)%N in
  exists result s' duration,
    MonitoringOrchestrator.run_with world config salesforceAuth
      debugLogMonitor governorLimitMonitor codeQualityMonitor s = (Ok result, s')
    /\ runs_of s' = runs_of s ++ [closed runId (status_of result) duration]
    /\ Tables.sequence (MonitoringDatabase.tables (Sys.db s')) = runId
    /\ match result with
       | RunResult.Success id elapsed _ _ => id = runId /\ elapsed = duration
       | RunResult.Failure _ => True
       end.
Proof.
  intros healthy Hwell. cbn zeta.
  set (runId := (Tables.sequence (MonitoringDatabase.tables (Sys.db s)) + 1)%N).
  set (s1 := {| Sys.ext := Ext.ticked (Sys.ext s);
                Sys.db :=
                  {| MonitoringDatabase.calls :=
                       Datatypes.S (MonitoringDatabase.calls (Sys.db s));
                     MonitoringDatabase.tables :=
                       Tables.started (MonitoringDatabase.tables (Sys.db s)) |} |}).
  destruct (MonitoringOrchestrator.tryBlock world config salesforceAuth
              debugLogMonitor governorLimitMonitor codeQualityMonitor
              (World.now world (Ext.ticks (Sys.ext s))) runId s1)
    as [[result|e] s2] eqn:Htry.
  - pose proof (tryBlock_runs _ _ _ _ _ Htry) as (duration & n & results & -> & Hruns & Hseq).
    exists (RunResult.Success runId duration n results), s2, duration.
    split; [ exact (run_after_return world config salesforceAuth debugLogMonitor
                      governorLimitMonitor codeQualityMonitor healthy s _ _ Htry) | ].
    split; [ | split; [ | split; reflexivity ] ].
    + rewrite Hruns. unfold runs_of, s1. cbn [Sys.db MonitoringDatabase.tables].
      apply ended_started; [ exact Hwell | reflexivity ].
    + rewrite Hseq. reflexivity.
  - pose proof (tryBlock_runs _ _ _ _ _ Htry) as [Hruns Hseq].
    destruct s2 as [ext2 [calls2 tables2]].
    eexists. eexists. eexists.
    split; [ exact (run_after_throw world config salesforceAuth debugLogMonitor
                      governorLimitMonitor codeQualityMonitor healthy s e ext2 calls2
                      tables2 Htry) | ].
    unfold runs_of in *. cbn [Sys.db MonitoringDatabase.tables] in *.
    split; [ | split; [ | exact I ] ].
    + unfold Tables.ended. cbn [Tables.monitoring_runs]. rewrite Hruns.
      apply ended_started; [ exact Hwell | reflexivity ].
    + unfold Tables.ended. cbn [Tables.sequence]. rewrite Hseq. reflexivity.
Qed.

End RunRows.

Lemma run_closes_its_row_when_the_store_works_witness :
  exists result s' duration,
    MonitoringOrchestrator.run Sample.world Sample.config_without_window
      Sample.authenticated Sample.start = (Ok result, s')
    /\ runs_of s' = runs_of Sample.start ++ [closed 1 (status_of result) duration]
    /\ Tables.sequence (MonitoringDatabase.tables (Sys.db s')) = 1%N
    /\ match result with
       | RunResult.Success id elapsed _ _ => id = 1%N /\ elapsed = duration
       | RunResult.Failure _ => True
       end.
Proof.
  exact (run_closes_its_row_when_the_store_works Sample.world Sample.config_without_window
           Sample.authenticated
           (fun _ => DebugLogMonitor.monitor Sample.world Sample.config_without_window)
           (fun _ => GovernorLimitMonitor.monitor Sample.world Sample.config_without_window)
           (fun _ => CodeQualityMonitor.monitor Sample.world Sample.config_without_window)
           Sample.start (fun _ => eq_refl) (List.Forall_nil _)).
Defined.

(** ** The run of the agent, with its three monitors *)










(** ** The notifier, with its files and its mails *)

(** X24: [notify] never throws, whatever the file system and the mail
    transport do: a report that cannot be saved and a mail that cannot
    be sent are logged, and the rest goes on.  It does nothing at all
    when there are no anomalies and [onAnomalyOnly] is set.  Otherwise
    the report shows the number of anomalies, the sizes of the three
    snapshots (0 for a missing one) and the anomalies; it is saved
    when [generateHtml] is set and the file system accepts it, and
    mailed when the email option is enabled, the transporter was set
    up and the transport accepts the mail.  The subject of the mail is
    the alert with the number of anomalies, or the all-clear when
    there are none, which then implies that [onAnomalyOnly] is not
    set. *)
Theorem notify_never_throws (postal : Postal.t) (this : Notifications.t)
    (anomalies : list Anomaly.t) (monitoringResults : MonitoringResults.t)
    (s : Outbox.t) :
  let notifications := Config.notifications (Notifications.config this) in
  let skipped :=
    (length anomalies =? 0)%nat && Config.Notifications.email_onAnomalyOnly notifications in
  let report := Notifications.generateReport anomalies monitoringResults in
  let mail :=
    {| Mail.subject := match anomalies with [] => AllClear | _ => Alert (length anomalies) end;
       Mail.html := report |} in
  exists s',
    Notifications.notify postal this anomalies monitoringResults s = (Ok tt, s')
    /\ (skipped = true -> s' = s)
    /\ Outbox.files s' =
         Outbox.files s
         ++ (if negb skipped && Config.Notifications.reports_generateHtml notifications
             then match Postal.writeReport postal (Outbox.saves s) with
                  | None => [report]
                  | Some _ => []
                  end
             else [])
    /\ Outbox.mails s' =
         Outbox.mails s
         ++ (if negb skipped && Config.Notifications.email_enabled notifications
                && Notifications.transporter this
             then match Postal.sendMail postal (Outbox.sends s) with
                  | None => [mail]
                  | Some _ => []
                  end
             else [])
    /\ (Mail.subject mail = AllClear -> skipped = false ->
        Config.Notifications.email_onAnomalyOnly notifications = false)
    /\ (Report.anomaliesDetected report, Report.detected report)
       = (length anomalies, anomalies).
Proof.
  cbn zeta. unfold Notifications.notify. cbn zeta.
  set (notifications := Config.notifications (Notifications.config this)).
  assert (Hsubject :
            (if (0 <? length anomalies)%nat then Alert (length anomalies) else AllClear)
            = match anomalies with [] => AllClear | _ => Alert (length anomalies) end)
    by (destruct anomalies; reflexivity).
  destruct ((length anomalies =? 0)%nat
            && Config.Notifications.email_onAnomalyOnly notifications) eqn:Hskip.
  - exists s. unfold try_catch, ret. cbn [negb andb]. rewrite !app_nil_r.
    repeat split; try reflexivity. intros _ Hno. discriminate Hno.
  - cbn [negb andb].
    unfold try_catch at 1. unfold bind.
    unfold Notifications.saveReport, Notifications.sendEmail, Notifications.writeFile,
      Notifications.transport, Notifications.logged, try_catch, ret.
    rewrite Hsubject.
    destruct (Config.Notifications.reports_generateHtml notifications);
      destruct (Postal.writeReport postal (Outbox.saves s));
      destruct (Config.Notifications.email_enabled notifications);
      destruct (Notifications.transporter this);
      cbn [negb andb Outbox.sends];
      destruct (Postal.sendMail postal (Outbox.sends s));
      eexists; (split; [ reflexivity | ]);
      cbn [Outbox.files Outbox.mails]; rewrite ?app_nil_r;
      (split; [ intros Hyes; discriminate Hyes | ]);
      (split; [ reflexivity | ]); (split; [ reflexivity | ]);
      (split; [ | reflexivity ]);
      intros Hclear _; destruct anomalies; try discriminate Hclear;
      cbn [length Nat.eqb andb] in Hskip; exact Hskip.
Qed.

(** X28: a mail transport that cannot be created silences the mails
    for good.  When the email option is enabled and [createTransport]
    throws, [new Notifier(config)] still returns, with the failure
    logged once; from then on no call of [notify] hands a mail to the
    transport or even tries to, whatever the anomalies: each call that
    is not skipped logs the warning that the transporter is not
    configured, and saves its report as before. *)
Theorem mails_are_lost_without_a_transport (config : Config.t) (error : Error)
    (postal : Postal.t) (anomalies : list Anomaly.t)
    (monitoringResults : MonitoringResults.t) (s0 s : Outbox.t) :
  Config.Notifications.email_enabled (Config.notifications config) = true ->
  let skipped :=
    (length anomalies =? 0)%nat
    && Config.Notifications.email_onAnomalyOnly (Config.notifications config) in
  exists this s1 s',
    Notifications.construct config (Throw error) s0 = (Ok this, s1)
    /\ Outbox.log s1 =
         Outbox.log s0 ++ [LogError "Failed to setup email transporter" (message error)]
    /\ Notifications.notify postal this anomalies monitoringResults s = (Ok tt, s')
    /\ Outbox.mails s' = Outbox.mails s
    /\ Outbox.sends s' = Outbox.sends s
    /\ (if skipped then s' = s
        else last (Outbox.log s') =
               Some (LogWarn "Email transporter not configured, skipping email" None)).
Proof.
  intros Henabled. cbn zeta.
  unfold Notifications.construct, Notifications.setupEmailTransporter.
  rewrite Henabled.
  unfold try_catch, bind, lift, ret, Notifications.logged.
  exists {| Notifications.config := config; Notifications.transporter := false |}.
  eexists.
  unfold Notifications.notify. cbn [Notifications.config Notifications.transporter].
  rewrite Henabled.
  destruct ((length anomalies =? 0)%nat
            && Config.Notifications.email_onAnomalyOnly (Config.notifications config)).
  - exists s. repeat split; reflexivity.
  - unfold try_catch at 1. unfold bind.
    unfold Notifications.saveReport, Notifications.sendEmail, Notifications.writeFile,
      Notifications.logged, try_catch, ret.
    cbn [Notifications.transporter negb].
    destruct (Config.Notifications.reports_generateHtml (Config.notifications config));
      [ destruct (Postal.writeReport postal (Outbox.saves s)) | ];
      eexists; (split; [ reflexivity | ]); (split; [ reflexivity | ]);
      (split; [ reflexivity | ]);
      cbn [Outbox.mails Outbox.sends Outbox.log];
      (split; [ reflexivity | ]); (split; [ reflexivity | ]);
      apply last_snoc.
Qed.

Lemma mails_are_lost_without_a_transport_witness :
  let config := Sample.with_email in
  let postal := {| Postal.writeReport := fun _ => None; Postal.sendMail := fun _ => None |} in
  let anomalies :=
    AnomalyDetector.detectErrorAnomalies Sample.detector (Sample.snapshot 10) in
  exists this s1 s',
    Notifications.construct config (Throw (mkError "Error" "ENOTFOUND")) Sample.outbox
    = (Ok this, s1)
    /\ Outbox.log s1 = [LogError "Failed to setup email transporter" "ENOTFOUND"]
    /\ Notifications.notify postal this anomalies
         {| MonitoringResults.debugLogs := Some (Sample.snapshot 10);
            MonitoringResults.governorLimits := None;
            MonitoringResults.codeQuality := None |} Sample.outbox = (Ok tt, s')
    /\ Outbox.mails s' = []
    /\ Outbox.sends s' = 0%nat
    /\ last (Outbox.log s') =
         Some (LogWarn "Email transporter not configured, skipping email" None).
Proof.
  exact (mails_are_lost_without_a_transport Sample.with_email
           (mkError "Error" "ENOTFOUND")
           {| Postal.writeReport := fun _ => None; Postal.sendMail := fun _ => None |}
           (AnomalyDetector.detectErrorAnomalies Sample.detector (Sample.snapshot 10))
           {| MonitoringResults.debugLogs := Some (Sample.snapshot 10);
              MonitoringResults.governorLimits := None;
              MonitoringResults.codeQuality := None |}
           Sample.outbox Sample.outbox eq_refl).
Defined.

(** ** The process *)

Lemma run_returns_on_a_working_store world config salesforceAuth (s : Sys.t) :
  (forall k, World.store world k = None) ->
  well_numbered (MonitoringDatabase.tables (Sys.db s)) ->
  exists result s' duration,
    MonitoringOrchestrator.run world config salesforceAuth s = (Ok result, s')
    /\ runs_of s' =
         runs_of s
         ++ [closed (Tables.sequence (MonitoringDatabase.tables (Sys.db s)) + 1)%N
               (status_of result) duration]
    /\ Tables.sequence (MonitoringDatabase.tables (Sys.db s')) =
         (Tables.sequence (MonitoringDatabase.tables (Sys.db s)) + 1)%N.
Proof.
  intros healthy Hwell. unfold MonitoringOrchestrator.run.
  set (s1 := {| Sys.ext := Ext.ticked (Sys.ext s);
                Sys.db :=
                  {| MonitoringDatabase.calls :=
                       Datatypes.S (MonitoringDatabase.calls (Sys.db s));
                     MonitoringDatabase.tables :=
                       Tables.started (MonitoringDatabase.tables (Sys.db s)) |} |}).
  destruct (MonitoringOrchestrator.tryBlock world config salesforceAuth
              (fun _ => DebugLogMonitor.monitor world config)
              (fun _ => GovernorLimitMonitor.monitor world config)
              (fun _ => CodeQualityMonitor.monitor world config)
              (World.now world (Ext.ticks (Sys.ext s)))
              (Tables.sequence (MonitoringDatabase.tables (Sys.db s)) + 1)%N s1)
    as [[result|e] s2] eqn:Htry.
  - pose proof (tryBlock_runs _ _ _ _ _ _ _ _ _ _ _ Htry)
      as (duration & n & results & -> & Hruns & Hseq).
    do 3 eexists.
    split; [ exact (run_after_return world config salesforceAuth _ _ _ healthy s _ _ Htry) | ].
    split; [ | rewrite Hseq; reflexivity ].
    rewrite Hruns. unfold runs_of, s1. cbn [Sys.db MonitoringDatabase.tables].
    apply ended_started; [ exact Hwell | reflexivity ].
  - pose proof (tryBlock_runs _ _ _ _ _ _ _ _ _ _ _ Htry) as [Hruns Hseq].
    destruct s2 as [ext2 [calls2 tables2]].
    do 3 eexists.
    split; [ exact (run_after_throw world config salesforceAuth _ _ _ healthy s e ext2
                      calls2 tables2 Htry) | ].
    unfold runs_of in *. cbn [Sys.db MonitoringDatabase.tables] in *.
    unfold Tables.ended. cbn [Tables.monitoring_runs Tables.sequence]. rewrite Hruns.
    split; [ | exact Hseq ].
    apply ended_started; [ exact Hwell | reflexivity ].
Qed.

Lemma well_numbered_after s s' runId status duration :
  well_numbered (MonitoringDatabase.tables (Sys.db s)) ->
  runId = (Tables.sequence (MonitoringDatabase.tables (Sys.db s)) + 1)%N ->
  runs_of s' = runs_of s ++ [closed runId status duration] ->
  Tables.sequence (MonitoringDatabase.tables (Sys.db s')) = runId ->
  well_numbered (MonitoringDatabase.tables (Sys.db s')).
Proof.
  unfold well_numbered, runs_of. intros Hwell -> Hruns Hseq.
  rewrite Hruns, Hseq. apply List.Forall_app. split.
  - eapply List.Forall_impl; [ | exact Hwell ]. simpl. intros row Hrow. lia.
  - repeat constructor. cbn [closed RunRow.id]. lia.
Qed.

(** X27: runs do not disturb one another.  On a working store, two
    runs in a row, whatever they meet and whatever their results, get
    consecutive ids and leave two closed rows after the rows that were
    there; the second run does not touch the row of the first, and
    the ids stay the ones given out. *)
Theorem consecutive_runs_have_consecutive_ids (world : World.t) (config : Config.t)
    (first second : SalesforceAuth.t) (s : Sys.t) :
  (forall k, World.store world k = None) ->
  well_numbered (MonitoringDatabase.tables (Sys.db s)) ->
  let last := Tables.sequence (MonitoringDatabase.tables (Sys.db s)) in
  exists result1 s1 duration1 result2 s2 duration2,
    MonitoringOrchestrator.run world config first s = (Ok result1, s1)
    /\ MonitoringOrchestrator.run world config second s1 = (Ok result2, s2)
    /\ runs_of s2 =
         runs_of s
         ++ [closed (last + 1)%N (status_of result1) duration1;
             closed (last + 2)%N (status_of result2) duration2]
    /\ Tables.sequence (MonitoringDatabase.tables (Sys.db s2)) = (last + 2)%N
    /\ well_numbered (MonitoringDatabase.tables (Sys.db s2)).
Proof.
  intros healthy Hwell. cbn zeta.
  destruct (run_returns_on_a_working_store world config first s healthy Hwell)
    as (result1 & s1 & duration1 & Hrun1 & Hruns1 & Hseq1).
  pose proof (well_numbered_after s s1 _ _ _ Hwell eq_refl Hruns1 Hseq1) as Hwell1.
  destruct (run_returns_on_a_working_store world config second s1 healthy Hwell1)
    as (result2 & s2 & duration2 & Hrun2 & Hruns2 & Hseq2).
  pose proof (well_numbered_after s1 s2 _ _ _ Hwell1 eq_refl Hruns2 Hseq2) as Hwell2.
  exists result1, s1, duration1, result2, s2, duration2.
  split; [ exact Hrun1 | ]. split; [ exact Hrun2 | ].
  rewrite Hseq1 in Hruns2, Hseq2.
  replace (Tables.sequence (MonitoringDatabase.tables (Sys.db s)) + 2)%N
    with (Tables.sequence (MonitoringDatabase.tables (Sys.db s)) + 1 + 1)%N by lia.
  split; [ | split; [ exact Hseq2 | exact Hwell2 ] ].
  rewrite Hruns2, Hruns1, <- app_assoc. reflexivity.
Qed.

Lemma consecutive_runs_have_consecutive_ids_witness :
  exists result1 s1 duration1 result2 s2 duration2,
    MonitoringOrchestrator.run Sample.world Sample.config Sample.authenticated Sample.start
    = (Ok result1, s1)
    /\ MonitoringOrchestrator.run Sample.world Sample.config Sample.authenticated s1
       = (Ok result2, s2)
    /\ runs_of s2 =
         [closed 1 (status_of result1) duration1; closed 2 (status_of result2) duration2]
    /\ Tables.sequence (MonitoringDatabase.tables (Sys.db s2)) = 2%N
    /\ well_numbered (MonitoringDatabase.tables (Sys.db s2)).
Proof.
  exact (consecutive_runs_have_consecutive_ids Sample.world Sample.config
           Sample.authenticated Sample.authenticated Sample.start
           (fun _ => eq_refl) (List.Forall_nil _)).
Defined.

Section Process.

Context {S : Type}.
Variable world : World.t.
Variable config : Config.t.
Variable boot : Agent.Boot S.

Hypothesis healthy : forall k, World.store world k = None.

(** What [initialize] leaves when it returns, and when it throws. *)
Lemma initialize_outcome (a : Agent.t S) :
  exists r final,
    Agent.initialize config boot a = (r, final)
    /\ Agent.scheduled final = Agent.scheduled a
    /\ MonitoringDatabase.tables (Sys.db (Agent.sys final)) =
       MonitoringDatabase.tables (Sys.db (Agent.sys a))
    /\ Ext.queries (Sys.ext (Agent.sys final)) = Ext.queries (Sys.ext (Agent.sys a))
    /\ if ready boot (Agent.service a)
       then r = Ok tt
            /\ SalesforceAuth.conn (Agent.auth final) = Some (Agent.fresh boot)
            /\ Agent.databaseOpen final = true
       else (exists e, r = Throw e) /\ Agent.auth final = Agent.auth a.
Proof.
  unfold Agent.initialize, Agent.initializeDatabase, Agent.newNotifier,
    Agent.authenticate, ready.
  unfold try_catch, bind, throw, ret, Agent.log, Agent.on_sys, on_ext, logger.
  destruct (Agent.openDatabase boot) as [e|].
  - cbn. do 2 eexists. split; [ reflexivity | ]. cbn. repeat split; eauto.
  - cbn [Agent.sys Agent.auth Agent.service Agent.retries Agent.databaseOpen
         Agent.scheduled].
    unfold SalesforceAuth.authenticate.
    destruct (Config.Notifications.email_enabled _);
      [ destruct (Agent.createTransport boot) as [[]|e0] | ];
      cbn [Agent.sys Agent.auth Agent.service Agent.retries Agent.databaseOpen
           Agent.scheduled Sys.ext Sys.db];
      destruct (Retry.retry (Agent.login boot) 3 1000 (Agent.service a))
        as [[[]|e] [service' events]];
      cbn; do 2 eexists; (split; [ reflexivity | ]); cbn; repeat split; eauto.
Qed.

(** X25: how the process ends.  With a working store, [main] in
    one-shot mode exits with code 0 exactly when the start-up
    succeeds, that is when the database file opens and one of the
    three logins is accepted, and with code 1 otherwise; the code
    says nothing about the run, which may have failed.  When the
    start-up fails no run takes place: no query is sent and no row
    is written.  When it succeeds there is one run, with the
    connection of the login, and its row is closed.  The database
    handle is closed before the exit. *)
Theorem one_shot_exit_code (a : Agent.t S) :
  well_numbered (MonitoringDatabase.tables (Sys.db (Agent.sys a))) ->
  let runId :=
    (Tables.sequence (MonitoringDatabase.tables (Sys.db (Agent.sys a))) + 1)%N in
  exists final,
    Agent.main world config boot true a
    = (Ok (Agent.Exit (if ready boot (Agent.service a) then 0 else 1)), final)
    /\ Agent.databaseOpen final = false
    /\ if ready boot (Agent.service a)
       then SalesforceAuth.conn (Agent.auth final) = Some (Agent.fresh boot)
            /\ exists status duration,
                 (status = "completed" \/ status = "failed")
                 /\ runs_of (Agent.sys final) =
                      runs_of (Agent.sys a) ++ [closed runId status duration]
       else Agent.auth final = Agent.auth a
            /\ runs_of (Agent.sys final) = runs_of (Agent.sys a)
            /\ Ext.queries (Sys.ext (Agent.sys final)) =
                 Ext.queries (Sys.ext (Agent.sys a)).
Proof.
  intros Hwell. cbn zeta.
  destruct (initialize_outcome a) as (r & started & Hinit & _ & Htables & Hqueries & Hready).
  unfold Agent.main. unfold try_catch at 1. unfold bind at 1. rewrite Hinit.
  destruct (ready boot (Agent.service a)).
  - destruct Hready as (-> & Hconn & _).
    unfold bind at 1. unfold Agent.run, Agent.on_sys.
    destruct (run_returns_on_a_working_store world config (Agent.auth started)
                (Agent.sys started) healthy ltac:(rewrite Htables; exact Hwell))
      as (result & s' & duration & Hrun & Hruns & _).
    rewrite Hrun. eexists. split; [ reflexivity | ].
    cbn [Agent.databaseOpen Agent.auth Agent.sys].
    split; [ reflexivity | ]. split; [ exact Hconn | ].
    exists (status_of result), duration. split.
    + destruct result; simpl; tauto.
    + rewrite Hruns. unfold runs_of. rewrite Htables. reflexivity.
  - destruct Hready as [[e ->] Hauth].
    unfold bind, Agent.log, Agent.cleanup, Agent.on_sys, on_ext, logger, ret.
    eexists. split; [ reflexivity | ].
    cbn [Agent.databaseOpen Agent.auth Agent.sys].
    split; [ reflexivity | ]. split; [ exact Hauth | ].
    unfold runs_of. cbn [Sys.db Sys.ext Ext.logged Ext.queries].
    rewrite Htables, Hqueries. split; reflexivity.
Qed.

(** X26: how the process stays.  With a working store, [main]
    without [--run-once] leaves the process waiting exactly when the
    start-up succeeds and the scheduler accepts its schedule; the
    scheduler is then started, the database handle is open and one
    run has taken place, whose row is closed.  Otherwise it exits
    with code 1, the database handle closed, and no run has taken
    place: a schedule that is refused ends the process before the
    first run, although the start-up succeeded. *)
Theorem daemon_waits_after_the_first_run (a : Agent.t S) :
  well_numbered (MonitoringDatabase.tables (Sys.db (Agent.sys a))) ->
  let runId :=
    (Tables.sequence (MonitoringDatabase.tables (Sys.db (Agent.sys a))) + 1)%N in
  let waits :=
    ready boot (Agent.service a)
    && match Agent.schedule boot with None => true | Some _ => false end in
  exists final,
    Agent.main world config boot false a
    = (Ok (if waits then Agent.Waiting else Agent.Exit 1), final)
    /\ if waits
       then Agent.scheduled final = true
            /\ Agent.databaseOpen final = true
            /\ exists status duration,
                 (status = "completed" \/ status = "failed")
                 /\ runs_of (Agent.sys final) =
                      runs_of (Agent.sys a) ++ [closed runId status duration]
       else Agent.scheduled final = Agent.scheduled a
            /\ Agent.databaseOpen final = false
            /\ runs_of (Agent.sys final) = runs_of (Agent.sys a)
            /\ Ext.queries (Sys.ext (Agent.sys final)) =
                 Ext.queries (Sys.ext (Agent.sys a)).
Proof.
  intros Hwell. cbn zeta.
  destruct (initialize_outcome a)
    as (r & started & Hinit & Hscheduled & Htables & Hqueries & Hready).
  unfold Agent.main. unfold try_catch at 1. unfold bind at 1. rewrite Hinit.
  destruct (ready boot (Agent.service a)); cbn [andb].
  - destruct Hready as (-> & Hconn & Hopen).
    unfold bind at 1. unfold Agent.startScheduler.
    destruct (Agent.schedule boot) as [e|].
    + unfold bind, Agent.log, Agent.cleanup, Agent.on_sys, on_ext, logger, ret.
      eexists. split; [ reflexivity | ].
      cbn [Agent.databaseOpen Agent.scheduled Agent.sys].
      split; [ exact Hscheduled | ]. split; [ reflexivity | ].
      unfold runs_of. cbn [Sys.db Sys.ext Ext.logged Ext.queries].
      rewrite Htables, Hqueries. split; reflexivity.
    + unfold bind at 1. unfold Agent.run, Agent.on_sys.
      cbn [Agent.sys Agent.auth].
      destruct (run_returns_on_a_working_store world config (Agent.auth started)
                  (Agent.sys started) healthy ltac:(rewrite Htables; exact Hwell))
        as (result & s' & duration & Hrun & Hruns & _).
      rewrite Hrun. eexists. split; [ reflexivity | ].
      cbn [Agent.databaseOpen Agent.scheduled Agent.sys].
      split; [ reflexivity | ]. split; [ exact Hopen | ].
      exists (status_of result), duration. split.
      * destruct result; simpl; tauto.
      * rewrite Hruns. unfold runs_of. rewrite Htables. reflexivity.
  - destruct Hready as [[e ->] Hauth].
    unfold bind, Agent.log, Agent.cleanup, Agent.on_sys, on_ext, logger, ret.
    eexists. split; [ reflexivity | ].
    cbn [Agent.databaseOpen Agent.scheduled Agent.sys].
    split; [ exact Hscheduled | ]. split; [ reflexivity | ].
    unfold runs_of. cbn [Sys.db Sys.ext Ext.logged Ext.queries].
    rewrite Htables, Hqueries. split; reflexivity.
Qed.

End Process.

Lemma one_shot_exit_code_witness :
  exists final,
    Agent.main Sample.world Sample.config_without_window Sample.boot true Sample.process
    = (Ok (Agent.Exit 0), final)
    /\ Agent.databaseOpen final = false
    /\ SalesforceAuth.conn (Agent.auth final) = Some Sample.connection
    /\ exists status duration,
         (status = "completed" \/ status = "failed")
         /\ runs_of (Agent.sys final) = [closed 1 status duration].
Proof.
  exact (one_shot_exit_code Sample.world Sample.config_without_window Sample.boot
           (fun _ => eq_refl) Sample.process (List.Forall_nil _)).
Defined.

Lemma daemon_waits_after_the_first_run_witness :
  exists final,
    Agent.main Sample.world Sample.config Sample.boot false Sample.process
    = (Ok Agent.Waiting, final)
    /\ Agent.scheduled final = true
    /\ Agent.databaseOpen final = true
    /\ exists status duration,
         (status = "completed" \/ status = "failed")
         /\ runs_of (Agent.sys final) = [closed 1 status duration].
Proof.
  exact (daemon_waits_after_the_first_run Sample.world Sample.config Sample.boot
           (fun _ => eq_refl) Sample.process (List.Forall_nil _)).
Defined.

(** The exit code 0 of a one-shot process goes with a run that failed
    as well: without a lookback window the run is closed as [failed]
    after two seconds. *)
Example one_shot_exits_with_zero_after_a_failed_run :
  exists final,
    Agent.main Sample.world Sample.config_without_window Sample.boot true Sample.process
    = (Ok (Agent.Exit 0), final)
    /\ runs_of (Agent.sys final) = [closed 1 "failed" 2000].
Proof. eexists. split; [ vm_compute; reflexivity | reflexivity ]. Qed.
